(** * Travel_Guide: a shallow embedding of [main.py] and [server.py]

    The repository holds two Python programs that share their logic: a
    command-line tool ([main.py]) and a small HTTP handler ([server.py]).
    Both build a prompt from a destination and a few trip parameters, call a
    generative-text API once, and write the answer to [reports/<name>.md].

    Conventions of the embedding.
    - A Python [str] is a list of Unicode code points ([pystr := list N]).
      Text is assumed encodable (no lone surrogates), so writing it to a file
      or a stream never fails on encoding.
    - A Python [int] is a [Z].  [int()] refuses a string of more than 4300
      digits, the limit the interpreter starts with.  [str()] has the same
      limit; no integer that [int()], the JSON decoder or the conversion of
      a float produces exceeds it, and [str_of_int] is total.
    - [str.isspace] is the interpreter's fixed white-space table.  The
      character database behind [str.isalnum] and behind the decimal digits
      accepted by [int()] is not part of the repository: its ASCII range is
      written out, the rest is the interface [Unicode].
    - The API client, the [.env] loader and the location of [server.py] are
      not part of the repository either; they are Section variables.
    - Paths are joined with the POSIX separator.  Which paths the operating
      system refuses to create or to open for writing (a name too long for
      the file system, a missing permission) is part of the world; once a
      file is open, writing it completes. *)

From Stdlib Require Import ZArith NArith List Bool Lia String Ascii Decimal.
From stdpp Require Import base option gmap.
Import ListNotations.

Local Open Scope N_scope.
Set Warnings "-register-all".

(** ** Python values *)

Module Py.

Abbreviation pystr := (list N).

(** An ASCII literal of the source, as code points. *)
Definition lit (s : string) : pystr :=
  List.map N_of_ascii (list_ascii_of_string s).

Definition dquote : pystr := [34].
Definition newline : pystr := [10].

(** [str.isspace] for one character: the code points the interpreter
    treats as white space. *)
Definition isspace (c : N) : bool :=
  ((9 <=? c) && (c <=? 13)) || ((28 <=? c) && (c <=? 32))
  || (c =? 133) || (c =? 160) || (c =? 5760)
  || ((8192 <=? c) && (c <=? 8202))
  || (c =? 8232) || (c =? 8233) || (c =? 8239) || (c =? 8287)
  || (c =? 12288).

(** The part of the character database the programs consult outside ASCII. *)
Class Unicode := {
  uni_isalnum : N -> bool;
  uni_decimal : N -> option Z
}.

Definition ascii_isalnum (c : N) : bool :=
  ((48 <=? c) && (c <=? 57)) || ((65 <=? c) && (c <=? 90))
  || ((97 <=? c) && (c <=? 122)).

(** [ch.isalnum()] *)
Definition isalnum `{Unicode} (c : N) : bool :=
  if c <? 128 then ascii_isalnum c else uni_isalnum c.

(** The value of a decimal digit, as [int()] reads it. *)
Definition digit_value `{Unicode} (c : N) : option Z :=
  if c <? 128
  then (if (48 <=? c) && (c <=? 57) then Some (Z.of_N (c - 48)) else None)
  else uni_decimal c.

(** Dropping the characters that satisfy [blank] at the left end, at the
    right end, at both. *)
Fixpoint lstrip_by (blank : N -> bool) (s : pystr) : pystr :=
  match s with
  | c :: s' => if blank c then lstrip_by blank s' else s
  | [] => []
  end.

Definition rstrip_by (blank : N -> bool) (s : pystr) : pystr :=
  rev (lstrip_by blank (rev s)).

Definition strip_by (blank : N -> bool) (s : pystr) : pystr :=
  rstrip_by blank (lstrip_by blank s).

(** [s.strip()] *)
Definition strip (s : pystr) : pystr := strip_by isspace s.

(** The white space that [int()] skips around a number: in ASCII only
    the six characters of C, beyond ASCII all of [isspace]. *)
Definition int_space (c : N) : bool :=
  if c <? 128 then ((9 <=? c) && (c <=? 13)) || (c =? 32) else isspace c.

(** [s.split()]: the maximal runs of characters that are not white space.
    [cur] is the run being read, last character first. *)
Fixpoint split_from (cur s : pystr) : list pystr :=
  match s with
  | [] => match cur with [] => [] | _ :: _ => [rev cur] end
  | c :: s' =>
      if isspace c
      then match cur with
           | [] => split_from [] s'
           | _ :: _ => rev cur :: split_from [] s'
           end
      else split_from (c :: cur) s'
  end.

Definition split (s : pystr) : list pystr := split_from [] s.

(** [sep.join(parts)] *)
Fixpoint join (sep : pystr) (parts : list pystr) : pystr :=
  match parts with
  | [] => []
  | [p] => p
  | p :: rest => p ++ sep ++ join sep rest
  end.

(** [p in s] for strings: [p] occurs in [s]. *)
Fixpoint starts_with (p s : pystr) : bool :=
  match p, s with
  | [], _ => true
  | _ :: _, [] => false
  | x :: p', y :: s' => (x =? y) && starts_with p' s'
  end.

Fixpoint contains (p s : pystr) : bool :=
  starts_with p s ||
  match s with
  | [] => false
  | _ :: s' => contains p s'
  end.

(** [str(n)] for an int. *)
Fixpoint uint_digits (u : Decimal.uint) : pystr :=
  match u with
  | Nil => []
  | D0 u' => 48 :: uint_digits u'
  | D1 u' => 49 :: uint_digits u'
  | D2 u' => 50 :: uint_digits u'
  | D3 u' => 51 :: uint_digits u'
  | D4 u' => 52 :: uint_digits u'
  | D5 u' => 53 :: uint_digits u'
  | D6 u' => 54 :: uint_digits u'
  | D7 u' => 55 :: uint_digits u'
  | D8 u' => 56 :: uint_digits u'
  | D9 u' => 57 :: uint_digits u'
  end.

Definition str_of_int (n : Z) : pystr :=
  match Z.to_int n with
  | Decimal.Pos u => uint_digits u
  | Decimal.Neg u => 45 :: uint_digits u
  end.

(** [int(s)] for a string, base ten: white space around, an optional
    sign, digits with single underscores between them.  [seen] tells
    whether the previous character was a digit. *)
Fixpoint read_digits `{Unicode} (acc : Z) (seen : bool) (s : pystr) : option Z :=
  match s with
  | [] => if seen then Some acc else None
  | c :: s' =>
      match digit_value c with
      | Some d => read_digits (10 * acc + d)%Z true s'
      | None =>
          if (c =? 95) && seen then read_digits acc false s' else None
      end
  end.

Definition is_digit `{Unicode} (c : N) : bool :=
  match digit_value c with Some _ => true | None => false end.

(** [sys.get_int_max_str_digits()], as the interpreter starts: [int()]
    raises [ValueError] on a string with more digits. *)
Definition int_max_str_digits : N := 4300.

Definition int_of_str `{Unicode} (s : pystr) : option Z :=
  let s := strip_by int_space s in
  if int_max_str_digits <? N.of_nat (length (List.filter is_digit s)) then None
  else
    match s with
    | 43 :: r => read_digits 0%Z false r
    | 45 :: r => Z.opp <$> read_digits 0%Z false r
    | r => read_digits 0%Z false r
    end.

(** Truth value of an optional string: [None] and the empty string are
    false. *)
Definition truthy_opt (o : option pystr) : bool :=
  match o with
  | Some (_ :: _) => true
  | _ => false
  end.

(** *** Exceptions and results *)

Inductive exn :=
| ValueError
| TypeError (text : pystr)
| OverflowError
| AttributeError
| FileExistsError
| IsADirectoryError
| OSError
| SystemExit (code : Z)
| ApiError (text : pystr).

(** [except Exception] catches everything here but [SystemExit]. *)
Definition is_Exception (e : exn) : bool :=
  match e with
  | SystemExit _ => false
  | _ => true
  end.

Inductive result (A : Type) :=
| Ok (a : A)
| Raise (e : exn).
Arguments Ok {A} a.
Arguments Raise {A} e.

(** *** Values decoded from JSON *)

(** A float is not-a-number, an infinity, or the finite value [m * 2^e]. *)
Inductive pyfloat :=
| FNan
| FInf (negative : bool)
| FFinite (m e : Z).

Inductive json :=
| JNull
| JBool (b : bool)
| JInt (n : Z)
| JFloat (f : pyfloat)
| JStr (s : pystr)
| JArr (items : list json)
| JObj (fields : gmap pystr json).

(** Truth value, as [or], [if] and [not] test it. *)
Definition truthy (v : json) : bool :=
  match v with
  | JNull => false
  | JBool b => b
  | JInt n => negb (n =? 0)%Z
  | JFloat (FFinite m _) => negb (m =? 0)%Z
  | JFloat _ => true
  | JStr s => match s with [] => false | _ :: _ => true end
  | JArr l => match l with [] => false | _ :: _ => true end
  | JObj m => negb (bool_decide (m = ∅))
  end.

(** [a or b] *)
Definition py_or (a b : json) : json := if truthy a then a else b.

(** [int(f)] for a float: truncation towards zero. *)
Definition int_of_float (f : pyfloat) : result Z :=
  match f with
  | FNan => Raise ValueError
  | FInf _ => Raise OverflowError
  | FFinite m e =>
      if (0 <=? e)%Z then Ok (m * 2 ^ e)%Z else Ok (Z.quot m (2 ^ (- e)))%Z
  end.

(** The text of the [TypeError] that [int()] raises on a value of the
    type named [type_name]. *)
Definition int_type_error (type_name : pystr) : exn :=
  TypeError (lit "int() argument must be a string, a bytes-like object or a real number, not '"
             ++ type_name ++ lit "'").

(** [int(v)] *)
Definition py_int `{Unicode} (v : json) : result Z :=
  match v with
  | JInt n => Ok n
  | JBool b => Ok (if b then 1 else 0)%Z
  | JFloat f => int_of_float f
  | JStr s => match int_of_str s with Some n => Ok n | None => Raise ValueError end
  | JNull => Raise (int_type_error (lit "NoneType"))
  | JArr _ => Raise (int_type_error (lit "list"))
  | JObj _ => Raise (int_type_error (lit "dict"))
  end.

(** [d.get(key)] on a decoded object; a missing key gives [None]. *)
Definition dict_get (d : gmap pystr json) (key : pystr) : json :=
  default JNull (d !! key).

End Py.

(** ** The world the programs act on *)

Module Sys.
Import Py.

(** An entry of the file system. *)
Inductive node :=
| Dir
| File (content : pystr).

(** One request to the generative-text API: the configured key, the model
    name, the list passed to [generate_content], and the generation
    configuration (option names with the literal values of the source). *)
Record api_call := {
  call_key : option pystr;
  call_model : pystr;
  call_contents : list pystr;
  call_config : list (pystr * pystr)
}.

(** What the client does with a request: it raises an exception whose
    text is [text], or returns a result whose [text] attribute is a
    string or is missing. *)
Inductive api_outcome :=
| ApiRaises (text : pystr)
| ApiReturns (text : option pystr).

(** What argparse prints itself. *)
Inductive usage_error :=
| AmbiguousOption
| ExpectedOneArgument
| IgnoredExplicitArgument
| InvalidIntValue
| RequiredMissing
| UnrecognizedArguments.

(** Something written to a stream: a [print] call, or a message that
    argparse composes. *)
Inductive emitted :=
| Printed (line : pystr)
| UsageError (e : usage_error)
| HelpText.

(** A response sent by [_send_json]: the status and the members of the
    JSON object, in order. *)
Record response := {
  status : Z;
  payload : list (pystr * json)
}.

(** [refused] tells the paths that the operating system does not let the
    program create or open for writing. *)
Record world := {
  environ : gmap pystr pystr;
  files : gmap pystr node;
  refused : pystr -> bool;
  stdout : list emitted;
  stderr : list emitted;
  api_calls : list api_call;
  sent : list response
}.

(** Computations that read and change the world and may raise. *)
Definition M (A : Type) : Type := world -> result A * world.

Definition ret {A} (a : A) : M A := fun w => (Ok a, w).
Definition raise {A} (e : exn) : M A := fun w => (Raise e, w).
Definition bind {A B} (m : M A) (k : A -> M B) : M B :=
  fun w =>
    match m w with
    | (Ok a, w') => k a w'
    | (Raise e, w') => (Raise e, w')
    end.

(** [try: m / except Exception as exc: handler exc] *)
Definition try_except {A} (m : M A) (handler : exn -> M A) : M A :=
  fun w =>
    match m w with
    | (Ok a, w') => (Ok a, w')
    | (Raise e, w') => if is_Exception e then handler e w' else (Raise e, w')
    end.

Definition lift {A} (r : result A) : M A := fun w => (r, w).

Definition getenv (name : pystr) : M (option pystr) :=
  fun w => (Ok (environ w !! name), w).

(** The world after one change. *)
Definition set_environ (env : gmap pystr pystr) (w : world) : world :=
  {| environ := env; files := files w; refused := refused w;
     stdout := stdout w;
     stderr := stderr w; api_calls := api_calls w; sent := sent w |}.

Definition set_files (fs : gmap pystr node) (w : world) : world :=
  {| environ := environ w; files := fs; refused := refused w;
     stdout := stdout w;
     stderr := stderr w; api_calls := api_calls w; sent := sent w |}.

Definition add_stdout (x : emitted) (w : world) : world :=
  {| environ := environ w; files := files w; refused := refused w;
     stdout := stdout w ++ [x];
     stderr := stderr w; api_calls := api_calls w; sent := sent w |}.

Definition add_stderr (x : emitted) (w : world) : world :=
  {| environ := environ w; files := files w; refused := refused w;
     stdout := stdout w;
     stderr := stderr w ++ [x]; api_calls := api_calls w; sent := sent w |}.

Definition add_call (c : api_call) (w : world) : world :=
  {| environ := environ w; files := files w; refused := refused w;
     stdout := stdout w;
     stderr := stderr w; api_calls := api_calls w ++ [c]; sent := sent w |}.

Definition add_sent (r : response) (w : world) : world :=
  {| environ := environ w; files := files w; refused := refused w;
     stdout := stdout w;
     stderr := stderr w; api_calls := api_calls w; sent := sent w ++ [r] |}.

Definition write_stdout (x : emitted) : M unit :=
  fun w => (Ok tt, add_stdout x w).

Definition write_stderr (x : emitted) : M unit :=
  fun w => (Ok tt, add_stderr x w).

(** [Path(dir) / name] *)
Definition path_join (dir name : pystr) : pystr := dir ++ lit "/" ++ name.

(** [p.mkdir(parents=True, exist_ok=True)], the parents of [p] existing. *)
Definition mkdir (p : pystr) : M unit :=
  fun w =>
    match files w !! p with
    | Some Dir => (Ok tt, w)
    | Some (File _) => (Raise FileExistsError, w)
    | None =>
        if refused w p then (Raise OSError, w)
        else (Ok tt, set_files (<[p := Dir]> (files w)) w)
    end.

(** [p.write_text(content, encoding="utf-8")] in a directory that exists. *)
Definition write_text (p content : pystr) : M unit :=
  fun w =>
    match files w !! p with
    | Some Dir => (Raise IsADirectoryError, w)
    | _ =>
        if refused w p then (Raise OSError, w)
        else (Ok tt, set_files (<[p := File content]> (files w)) w)
    end.

(** [str(exc)].  The text of the exceptions that carry none here is not
    modelled; they do not arise where the programs format an exception. *)
Definition str_of_exn (e : exn) : pystr :=
  match e with
  | ApiError text => text
  | TypeError text => text
  | SystemExit code => str_of_int code
  | _ => []
  end.

#[export] Instance M_ret : MRet M := @ret.
#[export] Instance M_bind : MBind M := fun A B k m => bind m k.

End Sys.

(** ** Formatted string literals *)

Module FString.
Import Py.

(** One piece of an f-string: literal text, a replacement field holding a
    [str], a replacement field holding an [int]. *)
Inductive part :=
| Text (s : pystr)
| Str (s : pystr)
| Int (n : Z).

Definition render_part (p : part) : pystr :=
  match p with
  | Text s => s
  | Str s => s
  | Int n => str_of_int n
  end.

Definition render (ps : list part) : pystr := concat (List.map render_part ps).

End FString.

(** ** main.py: the prompt builder and the file name *)

Module Main.
Import Py Sys FString.

(** The f-string of [specific_month_line]. *)
Definition month_clause (month : pystr) : list part :=
  [Text (lit "If the user-specified month is provided, highlight guidance for ");
   Str month; Text (lit " explicitly.")].

(** The f-string of [budget_line]. *)
Definition budget_clause (daily_budget : Z) (currency : pystr) : list part :=
  [Text (lit "Assume a daily budget of around "); Int daily_budget;
   Text (lit " "); Str currency;
   Text (lit " and adjust recommendations accordingly.")].

(** The f-string that [build_prompt] returns. *)
Definition prompt_template (destination : pystr) (days : Z) (currency : pystr)
    (specific_month_line budget_line : pystr) : list part :=
  [
    Text newline;
    Text (lit "You are an expert travel planner. Generate a complete, accurate, and helpful travel guide in clear Markdown for the destination: "); Str destination; Text (lit "."); Text newline;
    Text newline;
    Text (lit "Output structure (use Markdown headings and bullet lists; keep it concise but complete):"); Text newline;
    Text newline;
    Text (lit "1. Title: "); Text dquote; Text (lit "Rupam's Travel Guide: "); Str destination; Text dquote; Text newline;
    Text (lit "2. One-paragraph overview"); Text newline;
    Text (lit "3. Best time to visit: months, weather patterns, crowd levels"); Text newline;
    Text (lit "4. Foreigner visit rate: qualitative plus rough figures or indexes when commonly known; else a careful qualitative estimate"); Text newline;
    Text (lit "5. Approximate costs in "); Str currency; Text (lit ":"); Text newline;
    Text (lit "   - Daily budget ranges (shoestring / mid-range / comfortable)"); Text newline;
    Text (lit "   - Typical costs: accommodation per night, meals, local transport, attractions"); Text newline;
    Text (lit "   - Example total for "); Int days; Text (lit " days"); Text newline;
    Text (lit "6. Best hotels in the area: 3-6 options across budget/mid-range/luxury with rough price range in "); Str currency; Text (lit "; include neighborhood context; if widely-known, add an official site or aggregator keyword (no live browsing)"); Text newline;
    Text (lit "7. Best local foods: 6-10 iconic dishes/snacks/drinks with one-line descriptions"); Text newline;
    Text (lit "8. Month-wise precautions: cover all 12 months with concise bullets (weather, closures, festivals, health, clothing). "); Str specific_month_line; Text newline;
    Text (lit "9. Itinerary for "); Int days; Text (lit " days: for each day, outline morning/afternoon/evening with 2-3 attraction ideas, approximate visit durations, transit suggestions, timing tips, and alternatives for rain/peak heat"); Text newline;
    Text (lit "10. Practical tips: safety, payments, SIM/internet, etiquette, local transport passes, tipping norms, scams to avoid"); Text newline;
    Text newline;
    Text (lit "General guidance:"); Text newline;
    Text (lit "- If specific facts are uncertain, label them as estimates and provide typical ranges. Do not fabricate precise numbers."); Text newline;
    Text (lit "- Keep suggestions family-friendly and culturally sensitive."); Text newline;
    Text (lit "- Avoid promises; use cautious language when needed."); Text newline;
    Text (lit "- Use readable Markdown with headings, bullet points, and short paragraphs."); Text newline;
    Text (lit "- Do not include any system or meta-instructions in the final answer."); Text newline;
    Str budget_line; Text newline
  ].

Definition build_prompt (destination : pystr) (days : Z) (month : option pystr)
    (currency : pystr) (daily_budget : option Z) : pystr :=
  let specific_month_line :=
    if truthy_opt month
    then render (month_clause (default [] month))
    else [] in
  let budget_line :=
    match daily_budget with
    | Some b => render (budget_clause b currency)
    | None => []
    end in
  render (prompt_template destination days currency specific_month_line budget_line).

(** A character that [sanitize_filename] keeps. *)
Definition keeps `{Unicode} (ch : N) : bool :=
  isalnum ch || (ch =? 32) || (ch =? 45) || (ch =? 95).

Definition sanitize_filename `{Unicode} (name : pystr) : pystr :=
  let safe := List.filter keeps name in
  let safe := join (lit "_") (split (strip safe)) in
  match safe with
  | [] => lit "travel_guide"
  | _ :: _ => firstn 100 safe
  end.

(** *** The command line, as argparse reads it

    [parse_args] configures an [argparse.ArgumentParser] with six long
    options and leaves the reading of [argv] to it.  The definitions below
    follow that reading (CPython 3.11) for this parser: exact option
    strings, [--name=value], unambiguous prefixes of long options, [-h] and
    [--help], the [--] marker, the one argument that must follow an option,
    and the conversion [type=int]. *)

Inductive action :=
| AHelp | ADestination | ADays | AMonth | ACurrency | ABudget | AModel.

(** The option strings of the parser, in registration order. *)
Definition option_strings : list (pystr * action) :=
  [(lit "-h", AHelp); (lit "--help", AHelp);
   (lit "--destination", ADestination); (lit "--days", ADays);
   (lit "--month", AMonth); (lit "--currency", ACurrency);
   (lit "--budget", ABudget); (lit "--model", AModel)].

Definition str_eqb (a b : pystr) : bool := bool_decide (a = b).

Definition lookup_option (s : pystr) : option action :=
  snd <$> List.find (fun p => str_eqb (fst p) s) option_strings.

(** [s.split(sep, 1)] when [sep] occurs in [s]. *)
Fixpoint split_once (sep : N) (s : pystr) : option (pystr * pystr) :=
  match s with
  | [] => None
  | c :: s' =>
      if c =? sep then Some ([], s')
      else (fun ab => (c :: fst ab, snd ab)) <$> split_once sep s'
  end.

(** [_get_option_tuples]: the option strings a token may abbreviate. *)
Definition get_option_tuples (tok : pystr)
    : list (action * pystr * option pystr) :=
  match tok with
  | 45 :: 45 :: _ =>
      let '(option_prefix, explicit_arg) :=
        match split_once 61 tok with
        | Some (p, e) => (p, Some e)
        | None => (tok, None)
        end in
      List.map (fun sa => (snd sa, fst sa, explicit_arg))
        (List.filter (fun sa => starts_with option_prefix (fst sa)) option_strings)
  | 45 :: c :: rest =>
      List.flat_map
        (fun sa =>
           if str_eqb (fst sa) [45; c] then [(snd sa, fst sa, Some rest)]
           else if starts_with tok (fst sa) then [(snd sa, fst sa, None)]
           else [])
        option_strings
  | _ => []
  end.

Definition all_digits `{Unicode} (s : pystr) : bool :=
  match s with [] => false | _ :: _ => forallb is_digit s end.

(** The pattern for negative numbers, [^-\d+$|^-\d*\.\d+$]; [$] also
    matches before a final newline. *)
Definition looks_negative `{Unicode} (tok : pystr) : bool :=
  match tok with
  | 45 :: r =>
      let body (t : pystr) :=
        all_digits t ||
        match split_once 46 t with
        | Some (a, b) => forallb is_digit a && all_digits b
        | None => false
        end in
      body r ||
      match rev r with
      | 10 :: t => body (rev t)
      | _ => false
      end
  | _ => false
  end.

Inductive parsed_optional :=
| Positional
| Optional (a : action) (option_string : pystr) (explicit_arg : option pystr)
| UnknownOptional
| Ambiguous.

(** [_parse_optional] *)
Definition parse_optional `{Unicode} (tok : pystr) : parsed_optional :=
  match tok with
  | [] => Positional
  | c :: _ =>
      if negb (c =? 45) then Positional else
      match lookup_option tok with
      | Some a => Optional a tok None
      | None =>
          if (length tok =? 1)%nat then Positional else
          match split_once 61 tok ≫= (fun pe =>
                  (fun a => Optional a (fst pe) (Some (snd pe)))
                    <$> lookup_option (fst pe)) with
          | Some r => r
          | None =>
              match get_option_tuples tok with
              | [(a, s, e)] => Optional a s e
              | _ :: _ :: _ => Ambiguous
              | [] =>
                  if looks_negative tok then Positional
                  else if existsb (N.eqb 32) tok then Positional
                  else UnknownOptional
              end
          end
      end
  end.

(** A classified token: an argument ([A]), the [--] marker, an option
    of the parser, an option the parser does not know. *)
Inductive item :=
| IArg (s : pystr)
| IMarker
| IOpt (a : action) (option_string : pystr) (explicit_arg : option pystr)
| IUnknown (s : pystr).

(** The first pass over [argv]; [None] when a token is ambiguous. *)
Fixpoint classify `{Unicode} (after_marker : bool) (argv : list pystr)
    : option (list item) :=
  match argv with
  | [] => Some []
  | tok :: rest =>
      if after_marker then cons (IArg tok) <$> classify true rest
      else if str_eqb tok (lit "--") then cons IMarker <$> classify true rest
      else match parse_optional tok with
           | Positional => cons (IArg tok) <$> classify false rest
           | Optional a s e => cons (IOpt a s e) <$> classify false rest
           | UnknownOptional => cons (IUnknown tok) <$> classify false rest
           | Ambiguous => None
           end
  end.

Record Namespace := {
  destination : pystr;
  days : Z;
  month : option pystr;
  currency : pystr;
  budget : option Z;
  model : option pystr
}.

(** What argparse stores for an option: the converted value, or an empty
    list when the explicit argument is [--] (as in [--days=--]), which it
    drops before converting. *)
Inductive stored (A : Type) :=
| Value (a : A)
| EmptyList.
Arguments Value {A} a.
Arguments EmptyList {A}.

(** The namespace while it is filled: [--destination] may still be
    missing. *)
Record partial := {
  p_destination : option (stored pystr);
  p_days : stored Z;
  p_month : option (stored pystr);
  p_currency : stored pystr;
  p_budget : option (stored Z);
  p_model : option (stored pystr)
}.

(** The defaults given to [add_argument]. *)
Definition defaults : partial :=
  {| p_destination := None; p_days := Value 4%Z; p_month := None;
     p_currency := Value (lit "INR"); p_budget := None; p_model := None |}.

(** The namespace as argparse hands it over: each field holds what was
    stored for it. *)
Record Args := {
  a_destination : stored pystr;
  a_days : stored Z;
  a_month : option (stored pystr);
  a_currency : stored pystr;
  a_budget : option (stored Z);
  a_model : option (stored pystr)
}.

(** The outcome of [parser.parse_args(argv)]: a namespace whose fields
    have the types that the annotations of [main.py] expect, a usage
    error (exit status 2), the help text (exit status 0), or a namespace
    in which some field is an empty list. *)
Inductive parse_outcome :=
| Parsed (ns : Namespace)
| Usage (e : usage_error)
| Help
| ListStored (args : Args).

(** [type=int] applied to the strings left for the option. *)
Definition convert_int `{Unicode} (v : option pystr) : option (stored Z) :=
  match v with
  | None => Some EmptyList
  | Some s => Value <$> int_of_str s
  end.

Definition convert_str (v : option pystr) : stored pystr :=
  match v with
  | None => EmptyList
  | Some s => Value s
  end.

(** Storing the value of an option; [v] is [None] when no string is
    left for it. *)
Definition take_action `{Unicode} (a : action) (v : option pystr) (ns : partial)
    : option partial :=
  match a with
  | AHelp => Some ns
  | ADestination =>
      Some {| p_destination := Some (convert_str v); p_days := p_days ns;
              p_month := p_month ns; p_currency := p_currency ns;
              p_budget := p_budget ns; p_model := p_model ns |}
  | ADays =>
      (fun n => {| p_destination := p_destination ns; p_days := n;
                   p_month := p_month ns; p_currency := p_currency ns;
                   p_budget := p_budget ns; p_model := p_model ns |})
        <$> convert_int v
  | AMonth =>
      Some {| p_destination := p_destination ns; p_days := p_days ns;
              p_month := Some (convert_str v); p_currency := p_currency ns;
              p_budget := p_budget ns; p_model := p_model ns |}
  | ACurrency =>
      Some {| p_destination := p_destination ns; p_days := p_days ns;
              p_month := p_month ns; p_currency := convert_str v;
              p_budget := p_budget ns; p_model := p_model ns |}
  | ABudget =>
      (fun n => {| p_destination := p_destination ns; p_days := p_days ns;
                   p_month := p_month ns; p_currency := p_currency ns;
                   p_budget := Some n; p_model := p_model ns |})
        <$> convert_int v
  | AModel =>
      Some {| p_destination := p_destination ns; p_days := p_days ns;
              p_month := p_month ns; p_currency := p_currency ns;
              p_budget := p_budget ns; p_model := Some (convert_str v) |}
  end.

(** [-h] glued to more characters: each of them is read as a further
    short flag, and [-h] is the only one. *)
Fixpoint short_flags (explicit_arg : pystr) : parse_outcome :=
  match explicit_arg with
  | [] => Usage IgnoredExplicitArgument
  | c :: rest =>
      if c =? 104
      then match rest with [] => Help | _ :: _ => short_flags rest end
      else Usage IgnoredExplicitArgument
  end.

(** An optional field that holds a value, if it holds no list. *)
Definition typed_opt {A} (o : option (stored A)) : option (option A) :=
  match o with
  | None => Some None
  | Some (Value a) => Some (Some a)
  | Some EmptyList => None
  end.

(** The namespace, when every field has the type [main] expects. *)
Definition typed (d : pystr) (ns : partial) : option Namespace :=
  match p_days ns, typed_opt (p_month ns), p_currency ns,
        typed_opt (p_budget ns), typed_opt (p_model ns) with
  | Value n, Some m, Value c, Some b, Some mo =>
      Some {| destination := d; days := n; month := m; currency := c;
              budget := b; model := mo |}
  | _, _, _, _, _ => None
  end.

Definition finish (ns : partial) (extras : bool) : parse_outcome :=
  match p_destination ns with
  | None => Usage RequiredMissing
  | Some d =>
      if extras then Usage UnrecognizedArguments
      else
        let args := {| a_destination := d; a_days := p_days ns;
                       a_month := p_month ns; a_currency := p_currency ns;
                       a_budget := p_budget ns; a_model := p_model ns |} in
        match d with
        | Value s =>
            match typed s ns with
            | Some ns' => Parsed ns'
            | None => ListStored args
            end
        | EmptyList => ListStored args
        end
  end.

(** [arg_strings.remove('--')] on the one explicit argument. *)
Definition explicit_value (e : pystr) : option pystr :=
  if str_eqb e (lit "--") then None else Some e.

(** The second pass: options take their value, everything else is left
    over ([extras]). *)
Fixpoint consume `{Unicode} (items : list item) (ns : partial) (extras : bool)
    : parse_outcome :=
  let store a v rest :=
    match take_action a v ns with
    | Some ns' => consume rest ns' extras
    | None => Usage InvalidIntValue
    end in
  match items with
  | [] => finish ns extras
  | IArg _ :: rest => consume rest ns true
  | IMarker :: rest => consume rest ns true
  | IUnknown _ :: rest => consume rest ns true
  | IOpt AHelp s (Some e) :: _ =>
      if str_eqb s (lit "-h") then short_flags e
      else Usage IgnoredExplicitArgument
  | IOpt AHelp _ None :: _ => Help
  | IOpt a _ (Some e) :: rest => store a (explicit_value e) rest
  | IOpt a _ None :: rest =>
      match rest with
      | IArg v :: rest' => store a (Some v) rest'
      | _ => Usage ExpectedOneArgument
      end
  end.


Definition parse_known `{Unicode} (argv : list pystr) : parse_outcome :=
  match classify false argv with
  | None => Usage AmbiguousOption
  | Some items => consume items defaults false
  end.

(** A typed namespace, field by field. *)
Definition untyped (ns : Namespace) : Args :=
  {| a_destination := Value (destination ns); a_days := Value (days ns);
     a_month := Value <$> month ns; a_currency := Value (currency ns);
     a_budget := Value <$> budget ns; a_model := Value <$> model ns |}.

(** A stored string inside an f-string: [str([])] is [[]]. *)
Definition shown (v : stored pystr) : pystr :=
  match v with
  | Value s => s
  | EmptyList => lit "[]"
  end.

(** The characters that iterating over a stored string yields: an empty
    list yields none. *)
Definition chars (v : stored pystr) : pystr :=
  match v with
  | Value s => s
  | EmptyList => []
  end.

(** An optional string as [or] and [if] test it: an empty list is as
    false as [None]. *)
Definition held (o : option (stored pystr)) : option pystr :=
  match o with
  | Some (Value s) => Some s
  | _ => None
  end.

(** The f-string of [budget_line] when the budget is an empty list. *)
Definition budget_clause_list (currency : pystr) : list part :=
  [Text (lit "Assume a daily budget of around "); Str (lit "[]");
   Text (lit " "); Str currency;
   Text (lit " and adjust recommendations accordingly.")].

(** [build_prompt] at the values a namespace can hold; at values of the
    annotated types it is [build_prompt]. *)
Definition build_prompt_stored (destination : stored pystr) (days : Z)
    (month : option (stored pystr)) (currency : stored pystr)
    (daily_budget : option (stored Z)) : pystr :=
  let specific_month_line :=
    if truthy_opt (held month)
    then render (month_clause (default [] (held month)))
    else [] in
  let budget_line :=
    match daily_budget with
    | Some (Value b) => render (budget_clause b (shown currency))
    | Some EmptyList => render (budget_clause_list (shown currency))
    | None => []
    end in
  render (prompt_template (shown destination) days (shown currency)
            specific_month_line budget_line).

(** [max(1, days)]: an empty list cannot be compared with a number. *)
Definition at_least_one (days : stored Z) : result Z :=
  match days with
  | Value n => Ok (Z.max 1 n)
  | EmptyList =>
      Raise (TypeError (lit "'>' not supported between instances of 'list' and 'int'"))
  end.

(** [value if value and value.strip() else None] *)
Definition nonblank (value : option pystr) : option pystr :=
  if truthy_opt value && truthy_opt (strip <$> value) then value else None.

(** [a or b] for optional strings. *)
Definition or_else (a b : option pystr) : option pystr :=
  if truthy_opt a then a else b.

(** [args.model or get_env_variable("MODEL") or "gemini-1.5-flash"] *)
Definition resolve_model (flag env_model : option pystr) : pystr :=
  default [] (or_else (or_else flag env_model) (Some (lit "gemini-1.5-flash"))).

Definition system_message : pystr :=
  lit "You are a seasoned travel planner who creates accurate, helpful, and organized travel guides.".

(** The list passed to [generate_content]. *)
Definition contents (user_message : pystr) : list pystr :=
  [lit "System: " ++ system_message; lit "User: " ++ user_message].

Definition generation_config : list (pystr * pystr) :=
  [(lit "temperature", lit "0.6"); (lit "top_p", lit "0.9");
   (lit "max_output_tokens", lit "2000")].

Section Program.
Context `{Unicode}.
(** The API client: its answer to a request, given the earlier ones. *)
Variable remote : list api_call -> api_call -> api_outcome.
(** The variables that the [.env] file found by [load_dotenv] defines
    (none when there is no such file). *)
Variable dotenv : gmap pystr pystr.

(** [load_dotenv(..., override=False)]: variables already set are kept. *)
Definition load_environment_variables : M unit :=
  fun w => (Ok tt, set_environ (environ w ∪ dotenv) w).

Definition get_env_variable (name : pystr) : M (option pystr) :=
  value ← getenv name;
  mret (nonblank value).

Definition save_output_markdown (destination content : pystr) : M pystr :=
  let reports_dir := lit "reports" in
  mkdir reports_dir;;
  let filename := sanitize_filename destination ++ lit ".md" in
  let out_path := path_join reports_dir filename in
  write_text out_path content;;
  mret out_path.

(** [model_client.generate_content(contents, generation_config=...)] *)
Definition generate_content (key : option pystr) (model : pystr)
    (contents : list pystr) : M (option pystr) :=
  fun w =>
    let c := {| call_key := key; call_model := model;
                call_contents := contents;
                call_config := generation_config |} in
    match remote (api_calls w) c with
    | ApiRaises text => (Raise (ApiError text), add_call c w)
    | ApiReturns text => (Ok text, add_call c w)
    end.

Definition generate_travel_guide (model : pystr) (destination : stored pystr)
    (days : Z) (month : option (stored pystr)) (currency : stored pystr)
    (daily_budget : option (stored Z)) : M pystr :=
  let user_message :=
    build_prompt_stored destination days month currency daily_budget in
  key ← getenv (lit "GOOGLE_API_KEY");
  text ← generate_content key model (contents user_message);
  let content := strip (default [] text) in
  mret content.

Definition parse_args (argv : list pystr) : M Args :=
  match parse_known argv with
  | Parsed ns => mret (untyped ns)
  | ListStored args => mret args
  | Usage e => write_stderr (UsageError e);; raise (SystemExit 2)
  | Help => write_stdout HelpText;; raise (SystemExit 0)
  end.

Definition main (argv : list pystr) : M Z :=
  load_environment_variables;;
  args ← parse_args argv;
  env_model ← get_env_variable (lit "MODEL");
  let model := resolve_model (held (a_model args)) env_model in
  google_key ← get_env_variable (lit "GOOGLE_API_KEY");
  if negb (truthy_opt google_key) then
    write_stderr
      (Printed (lit "ERROR: GOOGLE_API_KEY not set. Add it to .env or environment."));;
    mret 2%Z
  else
    outcome ← try_except
      (days ← lift (at_least_one (a_days args));
       content ← generate_travel_guide model (a_destination args) days
                   (a_month args) (a_currency args) (a_budget args);
       mret (inr content))
      (fun exc =>
         write_stderr
           (Printed (lit "ERROR: Failed to generate guide: " ++ str_of_exn exc));;
         mret (inl 1%Z));
    match outcome with
    | inl code => mret code
    | inr content =>
        write_stdout (Printed content);;
        out_path ← save_output_markdown (chars (a_destination args)) content;
        write_stdout (Printed (newline ++ lit "Saved to: " ++ out_path));;
        mret 0%Z
    end.

End Program.

End Main.

(** ** server.py *)

Module Server.
Import Py Sys FString.

(** A character that [sanitize_filename] keeps. *)
Definition keeps `{Unicode} (ch : N) : bool :=
  isalnum ch || (ch =? 32) || (ch =? 45) || (ch =? 95).

Definition sanitize_filename `{Unicode} (name : pystr) : pystr :=
  let safe := List.filter keeps name in
  let safe := join (lit "_") (split (strip safe)) in
  match safe with
  | [] => lit "travel_guide"
  | _ :: _ => firstn 100 safe
  end.

(** The f-string of [specific_month_line]. *)
Definition month_clause (month : pystr) : list part :=
  [Text (lit "If the user-specified month is provided, highlight guidance for ");
   Str month; Text (lit " explicitly.")].

(** The f-string of [budget_line]. *)
Definition budget_clause (daily_budget : Z) (currency : pystr) : list part :=
  [Text (lit "Assume a daily budget of around "); Int daily_budget;
   Text (lit " "); Str currency;
   Text (lit " and adjust recommendations accordingly.")].

(** The f-string that [build_prompt] returns. *)
Definition prompt_template (destination : pystr) (days : Z) (currency : pystr)
    (specific_month_line budget_line : pystr) : list part :=
  [
    Text newline;
    Text (lit "You are an expert travel planner. Generate a complete, accurate, and helpful travel guide in clear Markdown for the destination: "); Str destination; Text (lit "."); Text newline;
    Text newline;
    Text (lit "Output structure (use Markdown headings and bullet lists; keep it concise but complete):"); Text newline;
    Text newline;
    Text (lit "1. Title: "); Text dquote; Text (lit "Rupam's Travel Guide: "); Str destination; Text dquote; Text newline;
    Text (lit "2. One-paragraph overview"); Text newline;
    Text (lit "3. Best time to visit: months, weather patterns, crowd levels"); Text newline;
    Text (lit "4. Foreigner visit rate: qualitative plus rough figures or indexes when commonly known; else a careful qualitative estimate"); Text newline;
    Text (lit "5. Approximate costs in "); Str currency; Text (lit ":"); Text newline;
    Text (lit "   - Daily budget ranges (shoestring / mid-range / comfortable)"); Text newline;
    Text (lit "   - Typical costs: accommodation per night, meals, local transport, attractions"); Text newline;
    Text (lit "   - Example total for "); Int days; Text (lit " days"); Text newline;
    Text (lit "6. Best hotels in the area: 3-6 options across budget/mid-range/luxury with rough price range in "); Str currency; Text (lit "; include neighborhood context; if widely-known, add an official site or aggregator keyword (no live browsing)"); Text newline;
    Text (lit "7. Best local foods: 6-10 iconic dishes/snacks/drinks with one-line descriptions"); Text newline;
    Text (lit "8. Month-wise precautions: cover all 12 months with concise bullets (weather, closures, festivals, health, clothing). "); Str specific_month_line; Text newline;
    Text (lit "9. Itinerary for "); Int days; Text (lit " days: for each day, outline morning/afternoon/evening with 2-3 attraction ideas, approximate visit durations, transit suggestions, timing tips, and alternatives for rain/peak heat"); Text newline;
    Text (lit "10. Practical tips: safety, payments, SIM/internet, etiquette, local transport passes, tipping norms, scams to avoid"); Text newline;
    Text newline;
    Text (lit "General guidance:"); Text newline;
    Text (lit "- If specific facts are uncertain, label them as estimates and provide typical ranges. Do not fabricate precise numbers."); Text newline;
    Text (lit "- Keep suggestions family-friendly and culturally sensitive."); Text newline;
    Text (lit "- Avoid promises; use cautious language when needed."); Text newline;
    Text (lit "- Use readable Markdown with headings, bullet points, and short paragraphs."); Text newline;
    Text (lit "- Do not include any system or meta-instructions in the final answer."); Text newline;
    Str budget_line; Text newline
  ].

Definition build_prompt (destination : pystr) (days : Z) (month : option pystr)
    (currency : pystr) (daily_budget : option Z) : pystr :=
  let specific_month_line :=
    if truthy_opt month
    then render (month_clause (default [] month))
    else [] in
  let budget_line :=
    match daily_budget with
    | Some b => render (budget_clause b currency)
    | None => []
    end in
  render (prompt_template destination days currency specific_month_line budget_line).

(** What lines 87-88 make of the bytes the client sent: nothing was read,
    decoding or [json.loads] raised an exception with the given text, or
    [json.loads] returned a value. *)
Inductive body :=
| NoBytes
| Undecodable (text : pystr)
| Decoded (v : json).

(** A POST request: its path, its [Content-Length] header if any, and
    its body. *)
Record request := {
  path : pystr;
  content_length : option pystr;
  sent_body : body
}.

(** [self.rfile.read(length)]: nothing is read when [length] is zero. *)
Definition read_body (length : Z) (req : request) : body :=
  if (length =? 0)%Z then NoBytes else sent_body req.

(** [json.loads(body_bytes.decode("utf-8")) if body_bytes else {}]; on
    the left the text of the exception raised. *)
Definition loads (b : body) : pystr + json :=
  match b with
  | NoBytes => inr (JObj ∅)
  | Undecodable text => inl text
  | Decoded v => inr v
  end.

(** [v.strip()] for a decoded value: only strings have the method. *)
Definition strip_value (v : json) : result pystr :=
  match v with
  | JStr s => Ok (strip s)
  | _ => Raise AttributeError
  end.

(** [data.get]: only objects have the method. *)
Definition get_method (data : json) : result (gmap pystr json) :=
  match data with
  | JObj d => Ok d
  | _ => Raise AttributeError
  end.

Definition send_json (st : Z) (data : list (pystr * json)) : M unit :=
  fun w => (Ok tt, add_sent {| status := st; payload := data |} w).

Definition error_body (message : pystr) : list (pystr * json) :=
  [(lit "ok", JBool false); (lit "error", JStr message)].

Definition system_message : pystr :=
  lit "You are a seasoned travel planner who creates accurate, helpful, and organized travel guides.".

(** The list passed to [generate_content]. *)
Definition contents (prompt : pystr) : list pystr :=
  [lit "System: " ++ system_message; lit "User: " ++ prompt].

Definition generation_config : list (pystr * pystr) :=
  [(lit "temperature", lit "0.6"); (lit "top_p", lit "0.9");
   (lit "max_output_tokens", lit "2000")].

(** [(data.get("month") or "").strip() or None] *)
Definition month_of (d : gmap pystr json) : result (option pystr) :=
  match strip_value (py_or (dict_get d (lit "month")) (JStr [])) with
  | Ok [] => Ok None
  | Ok (c :: s) => Ok (Some (c :: s))
  | Raise e => Raise e
  end.

(** [(data.get("currency") or "INR").strip() or "INR"] *)
Definition currency_of (d : gmap pystr json) : result pystr :=
  match strip_value (py_or (dict_get d (lit "currency")) (JStr (lit "INR"))) with
  | Ok [] => Ok (lit "INR")
  | r => r
  end.

(** [(data.get("model") or os.getenv("MODEL") or "gemini-1.5-flash").strip()] *)
Definition model_of (d : gmap pystr json) (env_model : option pystr)
    : result pystr :=
  strip_value
    (py_or (dict_get d (lit "model"))
       (if truthy_opt env_model then JStr (default [] env_model)
        else JStr (lit "gemini-1.5-flash"))).

(** [(data.get("destination") or "").strip()] *)
Definition destination_of (d : gmap pystr json) : result pystr :=
  strip_value (py_or (dict_get d (lit "destination")) (JStr [])).

Section Handler.
Context `{Unicode}.
(** The API client: its answer to a request, given the earlier ones. *)
Variable remote : list api_call -> api_call -> api_outcome.
(** The directory that holds [server.py]. *)
Variable PROJECT_DIR : pystr.

Definition REPORTS_DIR : pystr := path_join PROJECT_DIR (lit "reports").

(** Lines 96-100: [days]. *)
Definition coerce_days (data : gmap pystr json) : Z :=
  let days := py_or (dict_get data (lit "days")) (JInt 4) in
  match py_int days with
  | Ok n => Z.max 1 n
  | Raise _ => 4%Z
  end.

(** Lines 105-109: [daily_budget]. *)
Definition coerce_budget (data : gmap pystr json) : option Z :=
  match dict_get data (lit "budget") with
  | JNull => None
  | daily_budget =>
      match py_int daily_budget with
      | Ok n => Some n
      | Raise _ => None
      end
  end.

(** [model_client.generate_content(contents, generation_config=...)] *)
Definition generate_content (key : option pystr) (model : pystr)
    (contents : list pystr) : M (option pystr) :=
  fun w =>
    let c := {| call_key := key; call_model := model;
                call_contents := contents;
                call_config := generation_config |} in
    match remote (api_calls w) c with
    | ApiRaises text => (Raise (ApiError text), add_call c w)
    | ApiReturns text => (Ok text, add_call c w)
    end.

(** Lines 141-143: the report is written under [REPORTS_DIR]. *)
Definition save_report (destination content : pystr) : M pystr :=
  mkdir REPORTS_DIR;;
  let file_path :=
    path_join REPORTS_DIR (sanitize_filename destination ++ lit ".md") in
  write_text file_path content;;
  mret file_path.

(** The body of [do_POST] from line 92 on. *)
Definition generate (data : json) : M unit :=
  d ← lift (get_method data);
  destination ← lift (destination_of d);
  match destination with
  | [] => send_json 400 (error_body (lit "'destination' is required"))
  | _ :: _ =>
      let days := coerce_days d in
      month ← lift (month_of d);
      currency ← lift (currency_of d);
      let daily_budget := coerce_budget d in
      env_model ← getenv (lit "MODEL");
      model ← lift (model_of d env_model);
      google_key ← getenv (lit "GOOGLE_API_KEY");
      if negb (truthy_opt google_key) then
        send_json 500 (error_body (lit "GOOGLE_API_KEY not set"))
      else
        let prompt := build_prompt destination days month currency daily_budget in
        outcome ← try_except
          (text ← generate_content google_key model (contents prompt);
           mret (inr (strip (default [] text))))
          (fun exc => mret (inl (lit "Failed to generate: " ++ str_of_exn exc)));
        match outcome with
        | inl message => send_json 500 (error_body message)
        | inr content =>
            file_path ← save_report destination content;
            send_json 200 [(lit "ok", JBool true); (lit "markdown", JStr content);
                           (lit "saved", JStr file_path)]
        end
  end.

Definition do_POST (req : request) : M unit :=
  if negb (bool_decide (path req = lit "/api/generate")) then
    (* [SimpleHTTPRequestHandler] defines no [do_POST] *)
    raise AttributeError
  else
    length ← lift (match int_of_str (default (lit "0") (content_length req)) with
                   | Some n => Ok n
                   | None => Raise ValueError
                   end);
    match loads (read_body length req) with
    | inl text => send_json 400 (error_body (lit "Invalid JSON: " ++ text))
    | inr data => generate data
    end.

End Handler.

End Server.

(** ** The sanitizing transform, as the documentation words it

    Keep alphanumerics, spaces, hyphens and underscores; collapse white
    space to underscores; truncate to 100 characters; fall back to a
    constant name if empty. *)

Module Spec.
Import Py.

Definition allowed `{Unicode} (ch : N) : bool :=
  isalnum ch || (ch =? 32) || (ch =? 45) || (ch =? 95).

(** Where the reading of a name stands: before its first word, inside a
    word, or in the white space after one. *)
Inductive position :=
| BeforeWords
| InWord
| AfterWord.

(** Collapsing white space to underscores: the words are copied, every
    run of white space between two words becomes one underscore, and the
    white space before the first word and after the last one is dropped. *)
Fixpoint collapse (at_ : position) (s : pystr) : pystr :=
  match s with
  | [] => []
  | c :: s' =>
      if isspace c
      then collapse (match at_ with BeforeWords => BeforeWords | _ => AfterWord end) s'
      else match at_ with
           | AfterWord => 95 :: c :: collapse InWord s'
           | _ => c :: collapse InWord s'
           end
  end.

Definition sanitizing_transform `{Unicode} (destination : pystr) : pystr :=
  let kept := List.filter allowed destination in
  let collapsed := collapse BeforeWords kept in
  let truncated := firstn 100 collapsed in
  match truncated with
  | [] => lit "travel_guide"
  | _ :: _ => truncated
  end.

End Spec.

(** ** Deciding that a text cannot occur in a rendered f-string *)

Module Occurs.
Import Py FString.

(** The literal text at the front of [ps], up to its first replacement
    field, and whether the string ends there. *)
Fixpoint known (ps : list part) : pystr * bool :=
  match ps with
  | [] => ([], true)
  | Text s :: ps' => let '(t, e) := known ps' in (s ++ t, e)
  | _ :: _ => ([], false)
  end.

(** [m] is not a prefix of any string that begins with [t] (of [t]
    itself when [ended]). *)
Fixpoint excluded (m t : pystr) (ended : bool) : bool :=
  match m, t with
  | [], _ => false
  | _ :: _, [] => ended
  | x :: m', y :: t' => negb (x =? y) || excluded m' t' ended
  end.

(** [m] starts at no position of the literal [l] that [t] follows. *)
Fixpoint literal_free (m l t : pystr) (ended : bool) : bool :=
  match l with
  | [] => true
  | _ :: l' => excluded m (l ++ t) ended && literal_free m l' t ended
  end.

(** No non-empty suffix of [m] begins a string that begins with [t]. *)
Fixpoint tails_excluded (m t : pystr) (ended : bool) : bool :=
  match m with
  | [] => true
  | _ :: m' => excluded m t ended && tails_excluded m' t ended
  end.

(** The characters of [str(n)]. *)
Definition int_chars : pystr := lit "-0123456789".

(** [m] cannot occur in the rendering of [ps] unless it occurs in a
    string field: checked on the literal text alone. *)
Fixpoint clean (m : pystr) (ps : list part) : bool :=
  match ps with
  | [] => match m with [] => false | _ :: _ => true end
  | Text l :: ps' =>
      let '(t, e) := known ps' in literal_free m l t e && clean m ps'
  | Str _ :: ps' =>
      let '(t, e) := known ps' in
      match m with
      | [] => false
      | _ :: m' => tails_excluded m' t e && clean m ps'
      end
  | Int _ :: ps' =>
      match m with
      | [] => false
      | x :: _ => negb (existsb (N.eqb x) int_chars) && clean m ps'
      end
  end.

(** [m] occurs in no string field of [ps]. *)
Fixpoint fields_free (m : pystr) (ps : list part) : Prop :=
  match ps with
  | [] => True
  | Str u :: ps' => contains m u = false /\ fields_free m ps'
  | _ :: ps' => fields_free m ps'
  end.

End Occurs.

(** ** The texts that introduce the two optional clauses *)

Module Clauses.
Import Py.

(** The words of [specific_month_line] before the month. *)
Definition month_opening : pystr :=
  lit "If the user-specified month is provided, highlight guidance for".

(** The words of [budget_line] before the amount. *)
Definition budget_opening : pystr :=
  lit "Assume a daily budget of around".

End Clauses.

(** ** Sample values *)

Module Samples.
Import Py Sys.

(** A character database that knows the letters of Latin-1 only. *)
Definition latin1_isalnum (c : N) : bool :=
  (c =? 170) || (c =? 178) || (c =? 179) || (c =? 181) || (c =? 185)
  || (c =? 186) || ((188 <=? c) && (c <=? 190))
  || ((192 <=? c) && (c <=? 214)) || ((216 <=? c) && (c <=? 246))
  || ((248 <=? c) && (c <=? 255)).

Definition latin1 : Unicode :=
  {| uni_isalnum := latin1_isalnum; uni_decimal := fun _ => None |}.

Definition empty_world : world :=
  {| environ := ∅; files := ∅; refused := fun _ => false;
     stdout := []; stderr := [];
     api_calls := []; sent := [] |}.

(** A world in which the API key is set. *)
Definition keyed_world : world :=
  {| environ := {[ lit "GOOGLE_API_KEY" := lit "secret" ]}; files := ∅;
     refused := fun _ => false;
     stdout := []; stderr := []; api_calls := []; sent := [] |}.

(** What [--destination Kyoto] parses to. *)
Definition kyoto : Main.Namespace :=
  {| Main.destination := lit "Kyoto"; Main.days := 4; Main.month := None;
     Main.currency := lit "INR"; Main.budget := None; Main.model := None |}.

(** A POST to the endpoint whose body decodes to the object [d]. *)
Definition post (d : gmap pystr json) : Server.request :=
  {| Server.path := lit "/api/generate";
     Server.content_length := Some (lit "64");
     Server.sent_body := Server.Decoded (JObj d) |}.


(** A world whose key is blank. *)
Definition blank_key_world : world :=
  {| environ := {[ lit "GOOGLE_API_KEY" := lit "  " ]}; files := ∅;
     refused := fun _ => false;
     stdout := []; stderr := []; api_calls := []; sent := [] |}.

(** A [.env] file that holds a key and a model. *)
Definition dotenv_file : gmap pystr pystr :=
  {[ lit "GOOGLE_API_KEY" := lit "from-file"; lit "MODEL" := lit "gemini-pro" ]}.

(** The object of a plain request for Kyoto. *)
Definition kyoto_object : gmap pystr json :=
  {[ lit "destination" := JStr (lit " Kyoto ") ]}.

Definition answering (_ : list api_call) (_ : api_call) : api_outcome :=
  ApiReturns (Some (lit "# Guide")).

Definition failing (_ : list api_call) (_ : api_call) : api_outcome :=
  ApiRaises (lit "quota exceeded").

End Samples.

(** * Properties *)

(** ** Strings *)

Section StringFacts.
Import Py.

Lemma starts_with_app (p s : pystr) : starts_with p (p ++ s) = true.
Proof.
  induction p as [|x p IH]; simpl; [reflexivity|].
  rewrite N.eqb_refl. exact IH.
Qed.

Lemma starts_with_prefix (p x s : pystr) :
  starts_with (p ++ x) s = true -> starts_with p s = true.
Proof.
  revert s. induction p as [|a p IH]; intros s Hs; simpl in *; [reflexivity|].
  destruct s as [|b s]; [discriminate|].
  apply andb_true_iff in Hs as [Hab Hs].
  rewrite Hab. simpl. apply IH. exact Hs.
Qed.

Lemma contains_cons (p : pystr) (a : N) (s : pystr) :
  contains p s = true -> contains p (a :: s) = true.
Proof. intros Hs. simpl. rewrite Hs. apply orb_true_r. Qed.

Lemma contains_app_r (p a s : pystr) :
  contains p s = true -> contains p (a ++ s) = true.
Proof.
  intros Hs. induction a as [|x a IH]; [exact Hs|].
  simpl app. apply contains_cons. exact IH.
Qed.

Lemma contains_starts (p s : pystr) :
  starts_with p s = true -> contains p s = true.
Proof. intros Hs. destruct s; simpl in *; rewrite Hs; reflexivity. Qed.

(** A string occurs in every string built around it. *)
Lemma contains_infix (p a b : pystr) : contains p (a ++ p ++ b) = true.
Proof. apply contains_app_r, contains_starts, starts_with_app. Qed.

Lemma contains_app_l (p s b : pystr) :
  contains p s = true -> contains p (s ++ b) = true.
Proof.
  revert p. induction s as [|x s IH]; intros p Hs.
  - destruct p; [destruct b; reflexivity|discriminate].
  - simpl in Hs. apply orb_true_iff in Hs as [Hs|Hs].
    + apply contains_starts.
      destruct p as [|y p]; [reflexivity|].
      simpl in *. apply andb_true_iff in Hs as [Hxy Hs]. rewrite Hxy. simpl.
      clear -Hs. revert p Hs.
      induction s as [|z s IH]; intros p Hs.
      * destruct p; [reflexivity|discriminate].
      * destruct p as [|y p]; [reflexivity|]. simpl in *.
        apply andb_true_iff in Hs as [Hyz Hs]. rewrite Hyz. simpl.
        apply IH. exact Hs.
    + simpl app. apply contains_cons. apply IH. exact Hs.
Qed.

(** If a text occurs, so does each of its prefixes. *)
Lemma contains_prefix (p x s : pystr) :
  contains (p ++ x) s = true -> contains p s = true.
Proof.
  induction s as [|a s IH]; simpl; intros Hs.
  - rewrite orb_false_r in *. eapply starts_with_prefix. exact Hs.
  - apply orb_true_iff in Hs as [Hs|Hs].
    + apply starts_with_prefix in Hs. simpl in Hs. rewrite Hs. reflexivity.
    + rewrite (IH Hs). apply orb_true_r.
Qed.

End StringFacts.

(** ** Soundness of the occurrence check *)

Section OccursFacts.
Import Py FString Occurs.

Lemma render_cons (p : part) (ps : list part) :
  render (p :: ps) = render_part p ++ render ps.
Proof. reflexivity. Qed.

Lemma known_spec (ps : list part) (t : pystr) (e : bool) :
  known ps = (t, e) ->
  exists rest, render ps = t ++ rest /\ (e = true -> rest = []).
Proof.
  revert t e. induction ps as [|p ps IH]; intros t e Hk; simpl in Hk.
  - inversion Hk. exists []. split; reflexivity.
  - destruct p as [s|s|n].
    + destruct (known ps) as [t' e'] eqn:Hps. inversion Hk; subst.
      destruct (IH _ _ eq_refl) as [rest [Hr He]].
      exists rest. split; [|exact He].
      rewrite render_cons, Hr. simpl. apply List.app_assoc.
    + inversion Hk; subst. exists (render (Str s :: ps)).
      split; [reflexivity|discriminate].
    + inversion Hk; subst. exists (render (Int n :: ps)).
      split; [reflexivity|discriminate].
Qed.

Lemma excluded_sound (m t rest : pystr) (e : bool) :
  excluded m t e = true -> (e = true -> rest = []) ->
  starts_with m (t ++ rest) = false.
Proof.
  revert t. induction m as [|x m IH]; intros t Hx He; [discriminate|].
  destruct t as [|y t]; simpl in Hx.
  - rewrite (He Hx). reflexivity.
  - simpl. destruct (x =? y); simpl in *; [apply IH; assumption|reflexivity].
Qed.

Lemma literal_free_sound (m l t rest : pystr) (e : bool) :
  literal_free m l t e = true -> (e = true -> rest = []) ->
  contains m (t ++ rest) = false ->
  contains m (l ++ t ++ rest) = false.
Proof.
  intros Hl He Hc. induction l as [|a l IH]; [exact Hc|].
  simpl in Hl. apply andb_true_iff in Hl as [Hx Hl].
  change ((a :: l) ++ t ++ rest) with (a :: (l ++ t ++ rest)).
  cbn [contains]. rewrite (IH Hl), orb_false_r.
  change (a :: l ++ t ++ rest) with ((a :: l) ++ t ++ rest).
  rewrite List.app_assoc. apply (excluded_sound _ _ _ e); assumption.
Qed.

Lemma tails_excluded_suffix (m p s t : pystr) (e : bool) :
  tails_excluded m t e = true -> m = p ++ s -> s <> [] ->
  excluded s t e = true.
Proof.
  revert m. induction p as [|a p IH]; intros m Hm Heq Hs; simpl in Heq; subst m.
  - destruct s; [congruence|]. simpl in Hm.
    apply andb_true_iff in Hm as [Hm _]. exact Hm.
  - simpl in Hm. apply andb_true_iff in Hm as [_ Hm].
    apply (IH _ Hm eq_refl Hs).
Qed.

(** A match that begins in [v] and runs past its end splits the text. *)
Lemma starts_with_split (m v r : pystr) :
  starts_with m (v ++ r) = true ->
  starts_with m v = true \/
  exists s, m = v ++ s /\ s <> [] /\ starts_with s r = true.
Proof.
  revert m. induction v as [|a v IH]; intros m Hm.
  - destruct m as [|x m]; [left; reflexivity|].
    right. exists (x :: m). repeat split; [discriminate|exact Hm].
  - destruct m as [|x m]; [left; reflexivity|].
    simpl in Hm. apply andb_true_iff in Hm as [Hxa Hm].
    apply N.eqb_eq in Hxa. subst a.
    destruct (IH _ Hm) as [Hv|[s [Heq [Hs Hr]]]].
    + left. simpl. rewrite N.eqb_refl. exact Hv.
    + right. exists s. subst m. repeat split; assumption.
Qed.

Lemma field_free_sound (x : N) (m u t rest : pystr) (e : bool) :
  tails_excluded m t e = true -> (e = true -> rest = []) ->
  contains (x :: m) u = false ->
  contains (x :: m) (t ++ rest) = false ->
  contains (x :: m) (u ++ t ++ rest) = false.
Proof.
  intros Ht He Hu Hr. induction u as [|a u IH]; [exact Hr|].
  cbn [contains] in Hu. apply orb_false_iff in Hu as [Hsu Hu].
  change ((a :: u) ++ t ++ rest) with (a :: (u ++ t ++ rest)).
  cbn [contains]. rewrite (IH Hu), orb_false_r.
  change (a :: u ++ t ++ rest) with ((a :: u) ++ t ++ rest).
  destruct (starts_with (x :: m) ((a :: u) ++ t ++ rest)) eqn:Hs; [|reflexivity].
  apply starts_with_split in Hs as [Hs|[s [Heq [Hne Hs]]]].
  - rewrite Hs in Hsu. discriminate.
  - simpl in Heq. inversion Heq as [[Hxa Hm]].
    rewrite (excluded_sound s t rest e) in Hs; [discriminate| |exact He].
    eapply tails_excluded_suffix; eauto.
Qed.

Ltac in_literal :=
  vm_compute; repeat (first [left; reflexivity | right]).

Lemma uint_digits_chars (u : Decimal.uint) (c : N) :
  In c (uint_digits u) -> In c int_chars.
Proof.
  induction u; intros Hc; simpl in Hc; try contradiction;
    (destruct Hc as [Hc|Hc]; [subst c; in_literal|apply IHu; exact Hc]).
Qed.

Lemma str_of_int_chars (n : Z) (c : N) :
  In c (str_of_int n) -> In c int_chars.
Proof.
  unfold str_of_int. destruct (Z.to_int n) as [u|u].
  - apply (uint_digits_chars u).
  - intros Hc. simpl in Hc. destruct Hc as [Hc|Hc]; [subst c; in_literal|].
    apply (uint_digits_chars u). exact Hc.
Qed.

Lemma head_free_sound (x : N) (m u r : pystr) :
  (forall c, In c u -> c <> x) ->
  contains (x :: m) (u ++ r) = contains (x :: m) r.
Proof.
  intros Hu. induction u as [|a u IH]; [reflexivity|].
  change ((a :: u) ++ r) with (a :: (u ++ r)). cbn [contains starts_with].
  rewrite IH by (intros c Hc; apply Hu; right; exact Hc).
  destruct (x =? a) eqn:Hxa; [|reflexivity].
  apply N.eqb_eq in Hxa. exfalso. apply (Hu a); [left; reflexivity|congruence].
Qed.

(** The check is sound: a text that passes it occurs in the rendering
    only if it occurs in one of the string fields. *)
Lemma clean_sound (m : pystr) (ps : list part) :
  clean m ps = true -> fields_free m ps -> contains m (render ps) = false.
Proof.
  induction ps as [|p ps IH]; intros Hc Hf.
  - destruct m; [discriminate|reflexivity].
  - destruct p as [l|u|n]; cbn [clean] in Hc; cbn [fields_free] in Hf.
    + destruct (known ps) as [t e] eqn:Hk.
      apply andb_true_iff in Hc as [Hl Hc].
      destruct (known_spec _ _ _ Hk) as [rest [Hr He]].
      rewrite render_cons, Hr. cbn [render_part].
      apply (literal_free_sound _ _ _ _ e); try assumption.
      rewrite <- Hr. apply IH; assumption.
    + destruct (known ps) as [t e] eqn:Hk.
      destruct m as [|x m]; [discriminate|].
      apply andb_true_iff in Hc as [Hl Hc]. destruct Hf as [Hu Hf].
      destruct (known_spec _ _ _ Hk) as [rest [Hr He]].
      rewrite render_cons, Hr. cbn [render_part].
      apply (field_free_sound _ _ _ _ _ e); try assumption.
      rewrite <- Hr. apply IH; assumption.
    + destruct m as [|x m]; [discriminate|].
      apply andb_true_iff in Hc as [Hx Hc].
      rewrite render_cons. cbn [render_part].
      rewrite head_free_sound; [apply IH; assumption|].
      intros c Hin Heq. subst c. apply str_of_int_chars in Hin.
      apply negb_true_iff in Hx.
      assert (existsb (N.eqb x) int_chars = true) as Hex
        by (apply existsb_exists; exists x; split; [exact Hin|apply N.eqb_refl]).
      congruence.
Qed.

End OccursFacts.

(** ** The prompt builder *)

Section PromptFacts.
Import Py FString Occurs Clauses.

(** [server.py] repeats the builder of [main.py]. *)
Lemma server_build_prompt_eq :
  Server.build_prompt = Main.build_prompt.
Proof. reflexivity. Qed.

Lemma render_app (a b : list part) : render (a ++ b) = render a ++ render b.
Proof.
  unfold render. rewrite List.map_app. apply concat_app.
Qed.

(** A string field occurs in the rendering. *)
Lemma contains_field (u : pystr) (a b : list part) :
  contains u (render (a ++ Str u :: b)) = true.
Proof.
  rewrite render_app, render_cons. apply contains_infix.
Qed.

Lemma contains_int_field (n : Z) (a b : list part) :
  contains (str_of_int n) (render (a ++ Int n :: b)) = true.
Proof.
  rewrite render_app, render_cons. apply contains_infix.
Qed.

Lemma month_opening_not_in_budget_line (c : pystr) (b : option Z) :
  contains month_opening c = false ->
  contains month_opening
    match b with
    | Some n => render (Main.budget_clause n c)
    | None => []
    end = false.
Proof.
  intros Hc. destruct b as [n|]; [|reflexivity].
  apply clean_sound; [vm_compute; reflexivity|].
  cbv [fields_free Main.budget_clause]. auto.
Qed.

Lemma month_opening_absent (d : pystr) (n : Z) (c : pystr) (b : option Z) :
  contains month_opening d = false ->
  contains month_opening c = false ->
  contains month_opening (Main.build_prompt d n None c b) = false.
Proof.
  intros Hd Hc. unfold Main.build_prompt. cbn [truthy_opt].
  apply clean_sound; [vm_compute; reflexivity|].
  cbv [fields_free Main.prompt_template].
  pose proof (month_opening_not_in_budget_line c b Hc) as Hb.
  repeat split; auto.
Qed.

Lemma budget_opening_not_in_month_line (m : option pystr) :
  (forall t, m = Some t -> contains budget_opening t = false) ->
  contains budget_opening
    (if truthy_opt m then render (Main.month_clause (default [] m)) else [])
  = false.
Proof.
  intros Hm. destruct m as [[|x t]|]; try reflexivity.
  cbn [truthy_opt default]. apply clean_sound; [vm_compute; reflexivity|].
  cbv [fields_free Main.month_clause]. split; [|exact I].
  apply Hm. reflexivity.
Qed.

Lemma budget_opening_absent (d : pystr) (n : Z) (m : option pystr) (c : pystr) :
  contains budget_opening d = false ->
  contains budget_opening c = false ->
  (forall t, m = Some t -> contains budget_opening t = false) ->
  contains budget_opening (Main.build_prompt d n m c None) = false.
Proof.
  intros Hd Hc Hm. unfold Main.build_prompt.
  apply clean_sound; [vm_compute; reflexivity|].
  cbv [fields_free Main.prompt_template].
  pose proof (budget_opening_not_in_month_line m Hm) as Hl.
  repeat split; auto.
Qed.

(** What occurs in a string field occurs in the rendering. *)
Lemma contains_in_field (x u : pystr) (ps : list part) :
  In (Str u) ps -> contains x u = true -> contains x (render ps) = true.
Proof.
  intros Hin Hx. apply in_split in Hin as [a [b Heq]]. subst ps.
  rewrite render_app, render_cons. cbn [render_part].
  apply contains_app_r, contains_app_l. exact Hx.
Qed.

Lemma contains_refl (u : pystr) : contains u u = true.
Proof.
  apply contains_starts. rewrite <- (app_nil_r u) at 2. apply starts_with_app.
Qed.

Lemma contains_empty (s : pystr) : contains [] s = true.
Proof. destruct s; reflexivity. Qed.

Ltac in_template :=
  cbv [Main.prompt_template Main.month_clause Main.budget_clause];
  repeat (first [left; reflexivity | right]).

(** The month clause is part of the prompt when a month is given. *)
Lemma month_clause_present (d : pystr) (n : Z) (m c : pystr) (b : option Z) :
  m <> [] ->
  contains (render (Main.month_clause m)) (Main.build_prompt d n (Some m) c b) = true.
Proof.
  intros Hm. unfold Main.build_prompt.
  destruct m as [|x m]; [congruence|]. cbn [truthy_opt default].
  apply (contains_in_field _ (render (Main.month_clause (x :: m))));
    [in_template|apply contains_refl].
Qed.

Lemma month_present (d : pystr) (n : Z) (m c : pystr) (b : option Z) :
  contains m (Main.build_prompt d n (Some m) c b) = true.
Proof.
  destruct m as [|x m]; [apply contains_empty|].
  unfold Main.build_prompt. cbn [truthy_opt default].
  apply (contains_in_field _ (render (Main.month_clause (x :: m)))); [in_template|].
  apply (contains_field (x :: m) [_] [_]).
Qed.

(** The budget clause is part of the prompt when a budget is given. *)
Lemma budget_clause_present (d : pystr) (n : Z) (m : option pystr) (c : pystr)
    (b : Z) :
  contains (render (Main.budget_clause b c)) (Main.build_prompt d n m c (Some b)) = true.
Proof.
  unfold Main.build_prompt.
  apply (contains_in_field _ (render (Main.budget_clause b c)));
    [in_template|apply contains_refl].
Qed.

Lemma budget_value_present (d : pystr) (n : Z) (m : option pystr) (c : pystr)
    (b : Z) :
  contains (str_of_int b) (Main.build_prompt d n m c (Some b)) = true.
Proof.
  unfold Main.build_prompt.
  apply (contains_in_field _ (render (Main.budget_clause b c))); [in_template|].
  apply (contains_int_field b [_] [_; _; _]).
Qed.

Lemma currency_present (d : pystr) (n : Z) (m : option pystr) (c : pystr)
    (b : option Z) :
  contains c (Main.build_prompt d n m c b) = true.
Proof.
  unfold Main.build_prompt.
  apply (contains_in_field _ c); [in_template|apply contains_refl].
Qed.

End PromptFacts.

(** ** Claims about the prompt *)

Section PromptClaims.
Import Py FString Clauses.

(** C3 (amended).  With [month] unset the builder adds no month-emphasis
    clause: unless the destination or the currency themselves contain the
    opening words of the clause, no instance of the clause occurs in the
    prompt.  With [month] set, the prompt contains the month text verbatim,
    and the whole clause around it when the month is not empty.  Both
    copies of the builder behave so. *)
Theorem month_clause_follows_month :
  forall (d : pystr) (n : Z) (c : pystr) (b : option Z),
    (contains month_opening d = false ->
     contains month_opening c = false ->
     forall m,
       contains (render (Main.month_clause m)) (Main.build_prompt d n None c b) = false
       /\ contains (render (Server.month_clause m)) (Server.build_prompt d n None c b) = false)
    /\ (forall m,
          contains m (Main.build_prompt d n (Some m) c b) = true
          /\ contains m (Server.build_prompt d n (Some m) c b) = true
          /\ (m <> [] ->
              contains (render (Main.month_clause m))
                (Main.build_prompt d n (Some m) c b) = true)).
Proof.
  intros d n c b. split.
  - intros Hd Hc m.
    assert (contains (render (Main.month_clause m)) (Main.build_prompt d n None c b) = false) as Hm.
    { destruct (contains (render (Main.month_clause m)) (Main.build_prompt d n None c b)) eqn:Hx;
        [|reflexivity].
      rewrite <- (month_opening_absent d n c b Hd Hc).
      symmetry. apply (contains_prefix _ (lit " " ++ m ++ lit " explicitly.")).
      exact Hx. }
    split; exact Hm.
  - intros m. repeat split.
    + apply month_present.
    + apply month_present.
    + apply month_clause_present.
Qed.

(** C3, lower bound on the amendment: a destination that quotes the
    clause puts it into the prompt although [month] is unset. *)
Lemma month_clause_quoted_by_destination :
  contains (render (Main.month_clause (lit "May")))
    (Main.build_prompt
       (lit "If the user-specified month is provided, highlight guidance for May explicitly.")
       4 None (lit "INR") None) = true.
Proof. vm_compute. reflexivity. Qed.

Lemma month_clause_follows_month_witness :
  contains (render (Main.month_clause (lit "May")))
    (Main.build_prompt (lit "Kyoto") 3 None (lit "INR") (Some 5000%Z)) = false
  /\ contains (render (Main.month_clause (lit "May")))
       (Main.build_prompt (lit "Kyoto") 3 (Some (lit "May")) (lit "INR") None) = true.
Proof.
  destruct (month_clause_follows_month (lit "Kyoto") 3 (lit "INR") (Some 5000%Z))
    as [Hunset _].
  destruct (month_clause_follows_month (lit "Kyoto") 3 (lit "INR") None)
    as [_ Hset].
  split.
  - apply Hunset; vm_compute; reflexivity.
  - apply Hset. discriminate.
Defined.

(** C4 (amended).  With [budget] unset the builder adds no budget clause:
    unless the destination, the currency or the month themselves contain
    the opening words of the clause, no instance of it occurs in the
    prompt.  With [budget] set to any integer, zero included, the prompt
    contains the clause, hence the amount and the currency. *)
Theorem budget_clause_follows_budget :
  forall (d : pystr) (n : Z) (m : option pystr) (c : pystr),
    (contains budget_opening d = false ->
     contains budget_opening c = false ->
     (forall t, m = Some t -> contains budget_opening t = false) ->
     forall b' c',
       contains (render (Main.budget_clause b' c')) (Main.build_prompt d n m c None) = false
       /\ contains (render (Server.budget_clause b' c')) (Server.build_prompt d n m c None) = false)
    /\ (forall b : Z,
          contains (render (Main.budget_clause b c)) (Main.build_prompt d n m c (Some b)) = true
          /\ contains (str_of_int b) (Main.build_prompt d n m c (Some b)) = true
          /\ contains c (Main.build_prompt d n m c (Some b)) = true
          /\ contains (render (Server.budget_clause b c)) (Server.build_prompt d n m c (Some b)) = true).
Proof.
  intros d n m c. split.
  - intros Hd Hc Hm b' c'.
    assert (contains (render (Main.budget_clause b' c')) (Main.build_prompt d n m c None) = false) as Hb.
    { destruct (contains (render (Main.budget_clause b' c')) (Main.build_prompt d n m c None)) eqn:Hx;
        [|reflexivity].
      rewrite <- (budget_opening_absent d n m c Hd Hc Hm).
      symmetry.
      apply (contains_prefix _
               (lit " " ++ str_of_int b' ++ lit " " ++ c' ++
                lit " and adjust recommendations accordingly.")).
      exact Hx. }
    split; exact Hb.
  - intros b. repeat split.
    + apply budget_clause_present.
    + apply budget_value_present.
    + apply currency_present.
    + apply budget_clause_present.
Qed.

(** C4, lower bound on the amendment: a destination that quotes the
    clause puts it into the prompt although [budget] is unset. *)
Lemma budget_clause_quoted_by_destination :
  contains (render (Main.budget_clause 5000 (lit "INR")))
    (Main.build_prompt
       (lit "Assume a daily budget of around 5000 INR and adjust recommendations accordingly.")
       4 None (lit "INR") None) = true.
Proof. vm_compute. reflexivity. Qed.

Lemma budget_clause_follows_budget_witness :
  contains (render (Main.budget_clause 0 (lit "INR")))
    (Main.build_prompt (lit "Kyoto") 3 (Some (lit "May")) (lit "INR") None) = false
  /\ contains (render (Main.budget_clause 0 (lit "INR")))
       (Main.build_prompt (lit "Kyoto") 3 None (lit "INR") (Some 0%Z)) = true.
Proof.
  destruct (budget_clause_follows_budget (lit "Kyoto") 3 (Some (lit "May")) (lit "INR"))
    as [Hunset _].
  destruct (budget_clause_follows_budget (lit "Kyoto") 3 None (lit "INR"))
    as [_ Hset].
  split.
  - apply Hunset; try (vm_compute; reflexivity).
    intros t Ht. inversion Ht. vm_compute. reflexivity.
  - apply Hset.
Defined.

(** C9.  For Kyoto, three days, no month, INR and no budget, the prompt
    holds the title and both three-day instructions, and no
    budget-assumption sentence. *)
Theorem kyoto_prompt :
  let prompt := Main.build_prompt (lit "Kyoto") 3 None (lit "INR") None in
  contains (lit "Rupam's Travel Guide: Kyoto") prompt = true
  /\ contains (lit "9. Itinerary for 3 days: for each day") prompt = true
  /\ contains (lit "Example total for 3 days") prompt = true
  /\ contains budget_opening prompt = false
  /\ contains (lit "Assume") prompt = false.
Proof. vm_compute. repeat split. Qed.

End PromptClaims.

(** ** The file name *)

Section FilenameFacts.
Import Py.
Context `{Unicode}.

Lemma lstrip_by_In (blank : N -> bool) (s : pystr) (c : N) :
  In c (lstrip_by blank s) -> In c s.
Proof.
  induction s as [|a s IH]; simpl; [tauto|].
  destruct (blank a); [right; apply IH; assumption|tauto].
Qed.

Lemma strip_In (s : pystr) (c : N) : In c (strip s) -> In c s.
Proof.
  unfold strip, strip_by, rstrip_by. intros Hc.
  apply (lstrip_by_In isspace). apply in_rev.
  apply (lstrip_by_In isspace). apply in_rev in Hc. exact Hc.
Qed.

(** Every run that [split] returns is made of characters of the string
    that are not white space. *)
Lemma split_from_In (cur s p : pystr) (c : N) :
  (forall x, In x cur -> isspace x = false) ->
  In p (split_from cur s) -> In c p ->
  (In c cur \/ In c s) /\ isspace c = false.
Proof.
  revert cur. induction s as [|a s IH]; intros cur Hcur Hp Hc; simpl in Hp.
  - destruct cur as [|y cur]; [contradiction|].
    destruct Hp as [Hp|[]]. subst p. apply in_rev in Hc.
    split; [left; exact Hc|apply Hcur; exact Hc].
  - destruct (isspace a) eqn:Ha.
    + destruct cur as [|y cur].
      * destruct (IH [] (fun x (Hx : In x []) => match Hx with end) Hp Hc)
          as [[[]|Hs] Hsp].
        split; [right; right; exact Hs|exact Hsp].
      * destruct Hp as [Hp|Hp].
        -- subst p. apply in_rev in Hc.
           split; [left; exact Hc|apply Hcur; exact Hc].
        -- destruct (IH [] (fun x (Hx : In x []) => match Hx with end) Hp Hc)
             as [[[]|Hs] Hsp].
           split; [right; right; exact Hs|exact Hsp].
    + assert (forall x, In x (a :: cur) -> isspace x = false) as Hcur'.
      { intros x [Hx|Hx]; [subst x; exact Ha|apply Hcur; exact Hx]. }
      destruct (IH (a :: cur) Hcur' Hp Hc) as [[[Hx|Hx]|Hs] Hsp].
      * subst c. split; [right; left; reflexivity|exact Hsp].
      * split; [left; exact Hx|exact Hsp].
      * split; [right; right; exact Hs|exact Hsp].
Qed.

Lemma split_In (s p : pystr) (c : N) :
  In p (split s) -> In c p -> In c s /\ isspace c = false.
Proof.
  intros Hp Hc.
  destruct (split_from_In [] s p c (fun x (Hx : In x []) => match Hx with end) Hp Hc)
    as [[[]|Hs] Hsp].
  split; assumption.
Qed.

Lemma join_In (sep : pystr) (parts : list pystr) (c : N) :
  In c (join sep parts) ->
  In c sep \/ exists p, In p parts /\ In c p.
Proof.
  induction parts as [|p parts IH]; simpl; [tauto|].
  destruct parts as [|q parts].
  - intros Hc. right. exists p. split; [left; reflexivity|exact Hc].
  - intros Hc. apply in_app_or in Hc as [Hc|Hc].
    + right. exists p. split; [left; reflexivity|exact Hc].
    + apply in_app_or in Hc as [Hc|Hc]; [left; exact Hc|].
      destruct (IH Hc) as [Hs|[r [Hr Hcr]]]; [left; exact Hs|].
      right. exists r. split; [right; exact Hr|exact Hcr].
Qed.

Lemma In_firstn (n : nat) (s : pystr) (c : N) : In c (firstn n s) -> In c s.
Proof.
  revert s. induction n as [|n IH]; intros s Hc; [contradiction|].
  destruct s as [|a s]; [contradiction|].
  destruct Hc as [Hc|Hc]; [left; exact Hc|right; apply IH; exact Hc].
Qed.

Lemma filter_none (f : N -> bool) (s : pystr) :
  (forall c, In c s -> f c = false) -> List.filter f s = [].
Proof.
  induction s as [|a s IH]; intros Hs; [reflexivity|].
  simpl. rewrite (Hs a) by (left; reflexivity).
  apply IH. intros c Hc. apply Hs. right. exact Hc.
Qed.

(** The characters of the joined runs, before the name is cut. *)
Lemma joined_chars (name : pystr) (c : N) :
  In c (join (lit "_") (split (strip (List.filter Main.keeps name)))) ->
  Main.keeps c = true /\ isspace c = false.
Proof.
  intros Hc. apply join_In in Hc as [Hc|[p [Hp Hc]]].
  - destruct Hc as [Hc|[]]. subst c. split; reflexivity.
  - destruct (split_In _ _ _ Hp Hc) as [Hs Hsp]. split; [|exact Hsp].
    apply strip_In in Hs. apply List.filter_In in Hs as [_ Hk]. exact Hk.
Qed.

Lemma fallback_chars (c : N) :
  In c (lit "travel_guide") -> Main.keeps c = true /\ isspace c = false.
Proof.
  intros Hc. simpl in Hc.
  repeat (destruct Hc as [Hc|Hc]; [subst c; split; reflexivity|]).
  contradiction.
Qed.

Lemma server_sanitize_filename_eq (name : pystr) :
  Server.sanitize_filename name = Main.sanitize_filename name.
Proof. reflexivity. Qed.

Lemma filter_all (f : N -> bool) (s : pystr) :
  (forall c, In c s -> f c = true) -> List.filter f s = s.
Proof.
  induction s as [|a s IH]; intros Hs; [reflexivity|].
  simpl. rewrite (Hs a) by (left; reflexivity).
  f_equal. apply IH. intros c Hc. apply Hs. right. exact Hc.
Qed.

End FilenameFacts.

(** ** The file name and the transform of the documentation *)

Section FilenameSpec.
Import Py.
Context `{Unicode}.

Lemma rev_cons_nonempty (x : N) (cur : pystr) : rev (x :: cur) <> [].
Proof. simpl. intros Habs. apply app_eq_nil in Habs as [_ Habs]. discriminate. Qed.

(** [split] returns no empty word. *)
Lemma split_from_words (s cur p : pystr) : In p (split_from cur s) -> p <> [].
Proof.
  revert cur. induction s as [|c s IH]; intros cur; simpl.
  - destruct cur as [|x cur]; [intros []|].
    intros [<-|[]]. apply rev_cons_nonempty.
  - destruct (isspace c).
    + destruct cur as [|x cur]; [apply IH|].
      intros [<-|Hin]; [apply rev_cons_nonempty|exact (IH [] Hin)].
    + apply IH.
Qed.

Lemma join_words_nonempty (sep p : pystr) (ps : list pystr) :
  p <> [] -> join sep (p :: ps) <> [].
Proof.
  intros Hp. destruct ps as [|q ps]; [exact Hp|].
  change (join sep (p :: q :: ps)) with (p ++ sep ++ join sep (q :: ps)).
  intros Habs. apply app_eq_nil in Habs as [Habs _]. exact (Hp Habs).
Qed.

Lemma collapse_after_word (s : pystr) :
  Spec.collapse Spec.AfterWord s =
  match Spec.collapse Spec.BeforeWords s with
  | [] => []
  | t => 95 :: t
  end.
Proof.
  induction s as [|c s IH]; simpl; [reflexivity|].
  destruct (isspace c); [exact IH|reflexivity].
Qed.

(** Joining the words with underscores is reading the string once. *)
Lemma join_split_from (s cur : pystr) :
  join [95] (split_from cur s) =
  match cur with
  | [] => Spec.collapse Spec.BeforeWords s
  | _ :: _ => rev cur ++ Spec.collapse Spec.InWord s
  end.
Proof.
  revert cur. induction s as [|c s IH]; intros cur.
  - destruct cur as [|x cur]; [reflexivity|].
    cbn [split_from join Spec.collapse]. rewrite app_nil_r. reflexivity.
  - cbn [split_from Spec.collapse]. destruct (isspace c) eqn:Hc.
    + destruct cur as [|x cur]; [exact (IH [])|].
      pose proof (IH []) as IH0. cbn beta iota in IH0.
      rewrite collapse_after_word, <- IH0.
      destruct (split_from [] s) as [|p ps] eqn:Hs.
      * cbn [join]. rewrite app_nil_r. reflexivity.
      * assert (p <> []) as Hp
          by (apply (split_from_words s [] p); rewrite Hs; left; reflexivity).
        change (join [95] (rev (x :: cur) :: p :: ps))
          with (rev (x :: cur) ++ [95] ++ join [95] (p :: ps)).
        pose proof (join_words_nonempty [95] p ps Hp) as Hj.
        destruct (join [95] (p :: ps)) as [|y j]; [congruence|reflexivity].
    + rewrite (IH (c :: cur)). destruct cur as [|x cur]; [reflexivity|].
      cbn [rev]. rewrite <- List.app_assoc. reflexivity.
Qed.

Lemma collapse_lstrip (s : pystr) :
  Spec.collapse Spec.BeforeWords (lstrip_by isspace s) =
  Spec.collapse Spec.BeforeWords s.
Proof.
  induction s as [|c s IH]; [reflexivity|].
  cbn [lstrip_by Spec.collapse]. destruct (isspace c) eqn:Hc; [exact IH|].
  cbn [Spec.collapse]. rewrite Hc. reflexivity.
Qed.

Lemma collapse_snoc_space (s : pystr) (c : N) (at_ : Spec.position) :
  isspace c = true -> Spec.collapse at_ (s ++ [c]) = Spec.collapse at_ s.
Proof.
  intros Hc. revert at_. induction s as [|x s IH]; intros at_.
  - cbn [app Spec.collapse]. rewrite Hc. reflexivity.
  - cbn [app Spec.collapse]. destruct (isspace x); [apply IH|].
    destruct at_; rewrite IH; reflexivity.
Qed.

Lemma collapse_rev_lstrip (r : pystr) (at_ : Spec.position) :
  Spec.collapse at_ (rev (lstrip_by isspace r)) = Spec.collapse at_ (rev r).
Proof.
  induction r as [|c r IH]; [reflexivity|].
  cbn [lstrip_by]. destruct (isspace c) eqn:Hc; [|reflexivity].
  rewrite IH. cbn [rev]. rewrite (collapse_snoc_space _ _ _ Hc). reflexivity.
Qed.

Lemma join_split_strip (s : pystr) :
  join (lit "_") (split (strip s)) = Spec.collapse Spec.BeforeWords s.
Proof.
  change (lit "_") with [95]. unfold split, strip, strip_by, rstrip_by.
  rewrite (join_split_from _ []), collapse_rev_lstrip, rev_involutive.
  apply collapse_lstrip.
Qed.

(** [sanitize_filename] is the transform of the documentation. *)
Lemma sanitize_filename_transform (name : pystr) :
  Main.sanitize_filename name = Spec.sanitizing_transform name.
Proof.
  unfold Main.sanitize_filename, Spec.sanitizing_transform.
  rewrite join_split_strip.
  change (List.filter Main.keeps name) with (List.filter Spec.allowed name).
  destruct (Spec.collapse _ _) as [|x t]; reflexivity.
Qed.

(** A word is copied. *)
Lemma collapse_word (a r : pystr) (at_ : Spec.position) :
  (forall ch, In ch a -> isspace ch = false) ->
  Spec.collapse at_ (a ++ r) =
  match a with
  | [] => Spec.collapse at_ r
  | _ :: _ =>
      match at_ with Spec.AfterWord => [95] | _ => [] end
      ++ a ++ Spec.collapse Spec.InWord r
  end.
Proof.
  revert at_. induction a as [|x a IH]; intros at_ Ha; [reflexivity|].
  cbn [app Spec.collapse]. rewrite (Ha x) by (left; reflexivity).
  rewrite IH by (intros ch Hch; apply Ha; right; exact Hch).
  destruct a as [|y a]; destruct at_; reflexivity.
Qed.

Lemma collapse_last_word (a : pystr) (at_ : Spec.position) :
  (forall ch, In ch a -> isspace ch = false) ->
  Spec.collapse at_ a =
  match a with
  | [] => []
  | _ :: _ => match at_ with Spec.AfterWord => [95] | _ => [] end ++ a
  end.
Proof.
  intros Ha. pose proof (collapse_word a [] at_ Ha) as Hw.
  rewrite app_nil_r in Hw. rewrite Hw.
  destruct a as [|x a]; [reflexivity|].
  cbn [Spec.collapse]. rewrite app_nil_r. reflexivity.
Qed.

(** A run of spaces after a word is one gap. *)
Lemma collapse_spaces (k : nat) (r : pystr) :
  Spec.collapse Spec.InWord (repeat 32 (S k) ++ r) = Spec.collapse Spec.AfterWord r.
Proof.
  cbn [repeat app Spec.collapse]. change (isspace 32) with true. cbn iota.
  induction k as [|k IH]; [reflexivity|].
  cbn [repeat app Spec.collapse]. change (isspace 32) with true. exact IH.
Qed.

Lemma sanitize_two_words (a b : pystr) (k : nat) :
  a <> [] -> b <> [] ->
  (forall ch, In ch (a ++ b) -> Main.keeps ch = true /\ isspace ch = false) ->
  Main.sanitize_filename (a ++ repeat 32 (S k) ++ b) = firstn 100 (a ++ lit "_" ++ b).
Proof.
  intros Ha Hb Hch. rewrite sanitize_filename_transform.
  unfold Spec.sanitizing_transform.
  change Spec.allowed with Main.keeps.
  rewrite filter_all.
  - rewrite collapse_word
      by (intros ch Hin; apply Hch, in_or_app; left; exact Hin).
    rewrite collapse_spaces.
    rewrite (collapse_last_word b)
      by (intros ch Hin; apply Hch, in_or_app; right; exact Hin).
    destruct a as [|x a]; [congruence|].
    destruct b as [|y b]; [congruence|].
    reflexivity.
  - intros c Hc. apply in_app_or in Hc as [Hc|Hc];
      [apply Hch, in_or_app; left; exact Hc|].
    apply in_app_or in Hc as [Hc|Hc];
      [|apply Hch, in_or_app; right; exact Hc].
    apply repeat_spec in Hc. subst c. unfold Main.keeps.
    rewrite orb_true_r. reflexivity.
Qed.

Lemma sanitize_one_word (a : pystr) :
  a <> [] ->
  (forall ch, In ch a -> Main.keeps ch = true /\ isspace ch = false) ->
  Main.sanitize_filename a = firstn 100 a.
Proof.
  intros Ha Hch. rewrite sanitize_filename_transform.
  unfold Spec.sanitizing_transform.
  change Spec.allowed with Main.keeps.
  rewrite filter_all by (intros c Hc; apply Hch; exact Hc).
  rewrite (collapse_last_word a) by (intros ch Hin; apply Hch; exact Hin).
  destruct a as [|x a]; [congruence|]. reflexivity.
Qed.

End FilenameSpec.

(** C2.  The file name made from a destination holds only alphanumeric
    characters, spaces, hyphens and underscores, holds no white space any
    more, and has at most 100 characters; a destination without any valid
    character, the empty one included, gives [travel_guide].  The name is
    made from the destination as the documentation says: the valid
    characters are kept, the white space among them is collapsed to
    underscores, the result is cut at 100 characters, and [travel_guide]
    stands in for an empty one.  In particular a word of valid characters
    is its own name up to the cut, and two such words with spaces between
    them are joined by one underscore.  The two copies of the function
    agree. *)
Theorem sanitize_filename_safe `{Py.Unicode} :
  forall name : Py.pystr,
    let safe := Main.sanitize_filename name in
    (forall ch, In ch safe -> Main.keeps ch = true)
    /\ (forall ch, In ch safe -> Py.isspace ch = false)
    /\ (length safe <= 100)%nat
    /\ ((forall ch, In ch name -> Main.keeps ch = false) ->
        safe = Py.lit "travel_guide")
    /\ Server.sanitize_filename name = safe
    /\ safe = Spec.sanitizing_transform name
    /\ (name <> [] ->
        (forall ch, In ch name -> Main.keeps ch = true /\ Py.isspace ch = false) ->
        safe = firstn 100 name)
    /\ (forall (a b : Py.pystr) (k : nat),
          name = a ++ repeat 32%N (S k) ++ b ->
          a <> [] -> b <> [] ->
          (forall ch, In ch (a ++ b) ->
                      Main.keeps ch = true /\ Py.isspace ch = false) ->
          safe = firstn 100 (a ++ Py.lit "_" ++ b)).
Proof.
  intros name safe. subst safe.
  split; [|split; [|split; [|split; [|split; [|split; [|split]]]]]].
  - intros ch Hch. unfold Main.sanitize_filename in Hch.
    destruct (Py.join _ _) as [|x j] eqn:Hj.
    + apply fallback_chars. exact Hch.
    + apply In_firstn in Hch. rewrite <- Hj in Hch.
      apply joined_chars in Hch. tauto.
  - intros ch Hch. unfold Main.sanitize_filename in Hch.
    destruct (Py.join _ _) as [|x j] eqn:Hj.
    + apply fallback_chars. exact Hch.
    + apply In_firstn in Hch. rewrite <- Hj in Hch.
      apply joined_chars in Hch. tauto.
  - unfold Main.sanitize_filename.
    destruct (Py.join _ _) as [|x j]; [simpl; lia|apply firstn_le_length].
  - intros Hall. unfold Main.sanitize_filename.
    rewrite (filter_none _ _ Hall). reflexivity.
  - reflexivity.
  - apply sanitize_filename_transform.
  - intros Hne Hch. apply sanitize_one_word; assumption.
  - intros a b k -> Ha Hb Hch. apply sanitize_two_words; assumption.
Qed.

Lemma sanitize_filename_safe_witness :
  Main.sanitize_filename (H := Samples.latin1) (Py.lit "!!!???") = Py.lit "travel_guide"
  /\ Main.sanitize_filename (H := Samples.latin1) (Py.lit "Kyoto") = Py.lit "Kyoto"
  /\ Main.sanitize_filename (H := Samples.latin1) (Py.lit "New   York")
     = Py.lit "New_York".
Proof.
  split; [|split].
  - destruct (sanitize_filename_safe (H := Samples.latin1) (Py.lit "!!!???"))
      as (_ & _ & _ & Hfallback & _).
    apply Hfallback.
    intros ch Hch. simpl in Hch.
    repeat (destruct Hch as [Hch|Hch]; [subst ch; reflexivity|]).
    contradiction.
  - destruct (sanitize_filename_safe (H := Samples.latin1) (Py.lit "Kyoto"))
      as (_ & _ & _ & _ & _ & _ & Hword & _).
    apply Hword; [discriminate|].
    intros ch Hch. simpl in Hch.
    repeat (destruct Hch as [Hch|Hch]; [subst ch; split; reflexivity|]).
    contradiction.
  - destruct (sanitize_filename_safe (H := Samples.latin1) (Py.lit "New   York"))
      as (_ & _ & _ & _ & _ & _ & _ & Hwords).
    apply (Hwords (Py.lit "New") (Py.lit "York") 2%nat);
      [reflexivity|discriminate|discriminate|].
    intros ch Hch. simpl in Hch.
    repeat (destruct Hch as [Hch|Hch]; [subst ch; split; reflexivity|]).
    contradiction.
Defined.

(** ** The command-line front end *)

Section CliFacts.
Import Py Sys.
Context `{Unicode}.
Variable remote : list api_call -> api_call -> api_outcome.
Variable dotenv : gmap pystr pystr.

(** The request that [main] sends for a parsed command line, in the
    environment [env]. *)
Local Abbreviation request_of env ns :=
  {| call_key := env !! lit "GOOGLE_API_KEY";
     call_model :=
       Main.resolve_model (Main.model ns) (Main.nonblank (env !! lit "MODEL"));
     call_contents :=
       Main.contents
         (Main.build_prompt (Main.destination ns) (Z.max 1 (Main.days ns))
            (Main.month ns) (Main.currency ns) (Main.budget ns));
     call_config := Main.generation_config |}.

(** At values of the annotated types the prompt is that of
    [build_prompt]. *)
Lemma held_fmap (o : option pystr) : Main.held (Main.Value <$> o) = o.
Proof. destruct o; reflexivity. Qed.

Lemma build_prompt_typed (destination : pystr) (days : Z) (month : option pystr)
    (currency : pystr) (daily_budget : option Z) :
  Main.build_prompt_stored (Main.Value destination) days (Main.Value <$> month)
    (Main.Value currency) (Main.Value <$> daily_budget)
  = Main.build_prompt destination days month currency daily_budget.
Proof.
  unfold Main.build_prompt_stored, Main.build_prompt. rewrite held_fmap.
  destruct daily_budget; reflexivity.
Qed.

(** The fields of a typed namespace, as [main] reads them. *)
Ltac read_typed_args :=
  cbv [lift Main.at_least_one Main.untyped Main.a_destination Main.a_days
       Main.a_month Main.a_currency Main.a_budget Main.a_model Main.chars];
  rewrite ?held_fmap, ?build_prompt_typed.

Lemma nonblank_Some (v : option pystr) (k : pystr) :
  Main.nonblank v = Some k -> truthy_opt (Some k) = true.
Proof.
  unfold Main.nonblank.
  destruct (truthy_opt v && truthy_opt (strip <$> v)) eqn:Hv; [|discriminate].
  intros ->. apply andb_true_iff in Hv as [Hv _]. exact Hv.
Qed.

(** Without a usable key [main] stops before the generator. *)
Lemma main_without_key (argv : list pystr) (ns : Main.Namespace) (w : world) :
  Main.parse_known argv = Main.Parsed ns ->
  Main.nonblank ((environ w ∪ dotenv) !! lit "GOOGLE_API_KEY") = None ->
  Main.main remote dotenv argv w =
    (Ok 2%Z,
     add_stderr
       (Printed (lit "ERROR: GOOGLE_API_KEY not set. Add it to .env or environment."))
       (set_environ (environ w ∪ dotenv) w)).
Proof.
  intros Hp Hk. unfold Main.main, Main.parse_args. rewrite Hp.
  cbv [mbind M_bind bind mret M_ret ret Main.load_environment_variables
       Main.get_env_variable getenv write_stderr].
  read_typed_args.
  change (environ (set_environ (environ w ∪ dotenv) w)) with (environ w ∪ dotenv).
  rewrite Hk. reflexivity.
Qed.

(** With a key, [main] calls the generator; when that raises, nothing is
    printed to the output stream and nothing is saved. *)
Lemma main_generator_raises (argv : list pystr) (ns : Main.Namespace)
    (w : world) (key text : pystr) :
  Main.parse_known argv = Main.Parsed ns ->
  Main.nonblank ((environ w ∪ dotenv) !! lit "GOOGLE_API_KEY") = Some key ->
  remote (api_calls w) (request_of (environ w ∪ dotenv) ns) = ApiRaises text ->
  Main.main remote dotenv argv w =
    (Ok 1%Z,
     add_stderr (Printed (lit "ERROR: Failed to generate guide: " ++ text))
       (add_call (request_of (environ w ∪ dotenv) ns)
          (set_environ (environ w ∪ dotenv) w))).
Proof.
  intros Hp Hk Hr. unfold Main.main, Main.parse_args. rewrite Hp.
  cbv [mbind M_bind bind mret M_ret ret Main.load_environment_variables
       Main.get_env_variable getenv write_stderr try_except
       Main.generate_travel_guide Main.generate_content].
  read_typed_args.
  change (environ (set_environ (environ w ∪ dotenv) w)) with (environ w ∪ dotenv).
  rewrite Hk, (nonblank_Some _ _ Hk). cbn [negb].
  change (environ (set_environ (environ w ∪ dotenv) w)) with (environ w ∪ dotenv).
  change (api_calls (set_environ (environ w ∪ dotenv) w)) with (api_calls w).
  rewrite Hr. reflexivity.
Qed.

(** With a key and an answer, [main] prints the guide, saves it and
    prints the path. *)
Lemma main_generator_returns (argv : list pystr) (ns : Main.Namespace)
    (w : world) (key : pystr) (text : option pystr) :
  Main.parse_known argv = Main.Parsed ns ->
  Main.nonblank ((environ w ∪ dotenv) !! lit "GOOGLE_API_KEY") = Some key ->
  remote (api_calls w) (request_of (environ w ∪ dotenv) ns) = ApiReturns text ->
  let content := strip (default [] text) in
  let w1 := add_stdout (Printed content)
              (add_call (request_of (environ w ∪ dotenv) ns)
                 (set_environ (environ w ∪ dotenv) w)) in
  Main.main remote dotenv argv w =
    match Main.save_output_markdown (Main.destination ns) content w1 with
    | (Ok out_path, w2) =>
        (Ok 0%Z, add_stdout (Printed (newline ++ lit "Saved to: " ++ out_path)) w2)
    | (Raise e, w2) => (Raise e, w2)
    end.
Proof.
  intros Hp Hk Hr content w1. unfold Main.main, Main.parse_args. rewrite Hp.
  cbv [mbind M_bind bind mret M_ret ret Main.load_environment_variables
       Main.get_env_variable getenv write_stderr write_stdout try_except
       Main.generate_travel_guide Main.generate_content].
  read_typed_args.
  change (environ (set_environ (environ w ∪ dotenv) w)) with (environ w ∪ dotenv).
  rewrite Hk, (nonblank_Some _ _ Hk). cbn [negb].
  change (environ (set_environ (environ w ∪ dotenv) w)) with (environ w ∪ dotenv).
  change (api_calls (set_environ (environ w ∪ dotenv) w)) with (api_calls w).
  rewrite Hr. fold content. fold w1.
  destruct (Main.save_output_markdown _ _ _) as [[p|e] w2]; reflexivity.
Qed.

(** C5.  A command line that parses, run without a usable
    [GOOGLE_API_KEY] (unset, empty or blank, in the process environment
    and in the [.env] file), makes [main] print its error on the error
    stream and return 2; no request is sent and no file is written. *)
Theorem cli_missing_key_exits_2 :
  forall (argv : list pystr) (ns : Main.Namespace) (w : world),
    Main.parse_known argv = Main.Parsed ns ->
    Main.nonblank ((environ w ∪ dotenv) !! lit "GOOGLE_API_KEY") = None ->
    exists w',
      Main.main remote dotenv argv w = (Ok 2%Z, w')
      /\ stderr w' =
           stderr w ++
           [Printed (lit "ERROR: GOOGLE_API_KEY not set. Add it to .env or environment.")]
      /\ stdout w' = stdout w
      /\ api_calls w' = api_calls w
      /\ files w' = files w.
Proof.
  intros argv ns w Hp Hk. eexists. split.
  - apply (main_without_key argv ns w Hp Hk).
  - repeat split.
Qed.

(** C6.  When the generator raises on the request of a parsed command
    line, [main] prints [ERROR: Failed to generate guide: ] followed by the
    text of the exception on the error stream and returns 1; nothing goes
    to the output stream and the files are as before. *)
Theorem cli_generator_failure_exits_1 :
  forall (argv : list pystr) (ns : Main.Namespace) (w : world)
         (key text : pystr),
    Main.parse_known argv = Main.Parsed ns ->
    Main.nonblank ((environ w ∪ dotenv) !! lit "GOOGLE_API_KEY") = Some key ->
    remote (api_calls w) (request_of (environ w ∪ dotenv) ns) = ApiRaises text ->
    exists w',
      Main.main remote dotenv argv w = (Ok 1%Z, w')
      /\ stderr w' =
           stderr w ++ [Printed (lit "ERROR: Failed to generate guide: " ++ text)]
      /\ stdout w' = stdout w
      /\ files w' = files w.
Proof.
  intros argv ns w key text Hp Hk Hr. eexists. split.
  - apply (main_generator_raises argv ns w key text Hp Hk Hr).
  - repeat split.
Qed.

End CliFacts.

Lemma cli_missing_key_exits_2_witness :
  fst (Main.main (H := Samples.latin1) Samples.answering ∅
         [Py.lit "--destination"; Py.lit "Kyoto"] Samples.empty_world)
  = Py.Ok 2%Z.
Proof.
  destruct (cli_missing_key_exits_2 (H := Samples.latin1) Samples.answering ∅
               [Py.lit "--destination"; Py.lit "Kyoto"] Samples.kyoto
               Samples.empty_world)
    as [w' [Hmain _]].
  - vm_compute. reflexivity.
  - vm_compute. reflexivity.
  - rewrite Hmain. reflexivity.
Defined.

Lemma cli_generator_failure_exits_1_witness :
  fst (Main.main (H := Samples.latin1) Samples.failing ∅
         [Py.lit "--destination"; Py.lit "Kyoto"] Samples.keyed_world)
  = Py.Ok 1%Z.
Proof.
  destruct (cli_generator_failure_exits_1 (H := Samples.latin1) Samples.failing ∅
               [Py.lit "--destination"; Py.lit "Kyoto"] Samples.kyoto
               Samples.keyed_world (Py.lit "secret") (Py.lit "quota exceeded"))
    as [w' [Hmain _]].
  - vm_compute. reflexivity.
  - vm_compute. reflexivity.
  - reflexivity.
  - rewrite Hmain. reflexivity.
Defined.

(** ** The HTTP front end *)

Section ServerFacts.
Import Py Sys.
Context `{Unicode}.
Variable remote : list api_call -> api_call -> api_outcome.
Variable PROJECT_DIR : pystr.

(** The request that the handler sends for the object [d]. *)
Local Abbreviation request_for key model destination month currency d :=
  {| call_key := Some key;
     call_model := model;
     call_contents :=
       Server.contents
         (Server.build_prompt destination (Server.coerce_days d) month currency
            (Server.coerce_budget d));
     call_config := Server.generation_config |}.

(** A destination that is missing, or a string that is blank. *)
Lemma destination_of_blank (d : gmap pystr json) :
  d !! lit "destination" = None \/
  (exists s, d !! lit "destination" = Some (JStr s) /\ strip s = []) ->
  Server.destination_of d = Ok [].
Proof.
  unfold Server.destination_of, dict_get. intros [Hd|[s [Hd Hs]]]; rewrite Hd.
  - reflexivity.
  - destruct s as [|c s]; [reflexivity|]. simpl. rewrite Hs. reflexivity.
Qed.

Lemma do_POST_decoded (req : Server.request) (n : Z) (data : json) (w : world) :
  Server.path req = lit "/api/generate" ->
  int_of_str (default (lit "0") (Server.content_length req)) = Some n ->
  Server.loads (Server.read_body n req) = inr data ->
  Server.do_POST remote PROJECT_DIR req w = Server.generate remote PROJECT_DIR data w.
Proof.
  intros Hpath Hn Hdata. unfold Server.do_POST.
  rewrite bool_decide_eq_true_2 by exact Hpath. cbn [negb].
  cbv [mbind M_bind bind lift]. rewrite Hn, Hdata. reflexivity.
Qed.

Lemma generate_without_destination (d : gmap pystr json) (w : world) :
  Server.destination_of d = Ok [] ->
  Server.generate remote PROJECT_DIR (JObj d) w =
    (Ok tt,
     add_sent {| status := 400;
                 payload := Server.error_body (lit "'destination' is required") |} w).
Proof.
  intros Hd. unfold Server.generate.
  cbv [mbind M_bind bind lift Server.get_method]. rewrite Hd. reflexivity.
Qed.

Lemma mkdir_api_calls (p : pystr) (w : world) :
  api_calls (snd (mkdir p w)) = api_calls w.
Proof. unfold mkdir. destruct (files w !! p) as [[|c]|]; try destruct (refused w p); reflexivity. Qed.

Lemma write_text_api_calls (p content : pystr) (w : world) :
  api_calls (snd (write_text p content w)) = api_calls w.
Proof. unfold write_text. destruct (files w !! p) as [[|c]|]; try destruct (refused w p); reflexivity. Qed.

Lemma save_report_api_calls (destination content : pystr) (w : world) :
  api_calls (snd (Server.save_report PROJECT_DIR destination content w)) =
  api_calls w.
Proof.
  unfold Server.save_report. cbv [mbind M_bind bind mret M_ret ret].
  pose proof (mkdir_api_calls (Server.REPORTS_DIR PROJECT_DIR) w) as Hmk.
  destruct (mkdir _ w) as [[[]|e] w1]; [|exact Hmk].
  match goal with
  | |- context [write_text ?p ?t ?w0] =>
      pose proof (write_text_api_calls p t w0) as Hwt;
      destruct (write_text p t w0) as [[[]|e] w2]
  end; simpl in *; congruence.
Qed.

(** A request with a destination and a key sends exactly one request to
    the API, built from the coerced fields. *)
Lemma generate_sends (d : gmap pystr json) (w : world)
    (c0 : N) (destination : pystr) (month : option pystr)
    (currency model : pystr) (k0 : N) (key : pystr) :
  Server.destination_of d = Ok (c0 :: destination) ->
  Server.month_of d = Ok month ->
  Server.currency_of d = Ok currency ->
  Server.model_of d (environ w !! lit "MODEL") = Ok model ->
  environ w !! lit "GOOGLE_API_KEY" = Some (k0 :: key) ->
  api_calls (snd (Server.generate remote PROJECT_DIR (JObj d) w)) =
    api_calls w ++
    [request_for (k0 :: key) model (c0 :: destination) month currency d].
Proof.
  intros Hd Hm Hc Hmo Hk. unfold Server.generate.
  cbv [mbind M_bind bind lift Server.get_method getenv mret M_ret ret
       try_except Server.generate_content].
  rewrite Hd, Hm, Hc, Hmo, Hk. cbn [truthy_opt negb].
  destruct (remote _ _) as [text|text]; cbn [is_Exception]; [reflexivity|].
  match goal with
  | |- context [Server.save_report ?dir ?dst ?t ?w0] =>
      pose proof (save_report_api_calls dst t w0) as Hs;
      destruct (Server.save_report dir dst t w0) as [[p|e] w1]
  end; exact Hs.
Qed.

(** C7.  A POST to [/api/generate] whose body was read and decoded to an
    object that has no [destination], or whose [destination] is a string
    that is empty once trimmed, is answered with status 400 and a body
    with [ok] false; no request goes to the API and no file is written. *)
Theorem post_without_destination_is_400 :
  forall (req : Server.request) (n : Z) (d : gmap pystr json) (w : world),
    Server.path req = lit "/api/generate" ->
    int_of_str (default (lit "0") (Server.content_length req)) = Some n ->
    Server.loads (Server.read_body n req) = inr (JObj d) ->
    (d !! lit "destination" = None \/
     exists s, d !! lit "destination" = Some (JStr s) /\ strip s = []) ->
    exists w',
      Server.do_POST remote PROJECT_DIR req w = (Ok tt, w')
      /\ sent w' =
           sent w ++
           [{| status := 400;
               payload := [(lit "ok", JBool false);
                           (lit "error", JStr (lit "'destination' is required"))] |}]
      /\ api_calls w' = api_calls w
      /\ files w' = files w.
Proof.
  intros req n d w Hpath Hn Hdata Hd. eexists. split.
  - rewrite (do_POST_decoded req n (JObj d) w Hpath Hn Hdata).
    apply generate_without_destination, destination_of_blank, Hd.
  - repeat split.
Qed.

End ServerFacts.

Lemma post_without_destination_is_400_witness :
  fst (Server.do_POST (H := Samples.latin1) Samples.answering (Py.lit "/srv")
         (Samples.post {[ Py.lit "destination" := Py.JStr (Py.lit "   ") ]})
         Samples.keyed_world) = Py.Ok tt.
Proof.
  destruct (post_without_destination_is_400 (H := Samples.latin1)
              Samples.answering (Py.lit "/srv")
              (Samples.post {[ Py.lit "destination" := Py.JStr (Py.lit "   ") ]})
              64%Z {[ Py.lit "destination" := Py.JStr (Py.lit "   ") ]}
              Samples.keyed_world) as [w' [Hpost _]].
  - reflexivity.
  - vm_compute. reflexivity.
  - reflexivity.
  - right. exists (Py.lit "   "). split; vm_compute; reflexivity.
  - rewrite Hpost. reflexivity.
Defined.

(** ** Persistence *)

Section PersistenceFacts.
Import Py Sys.

(** What both programs do to save a report: make the directory, write the
    file, return its path. *)
Local Abbreviation persist dir name content :=
  (mkdir dir ≫= λ _, write_text (path_join dir name) content
                       ≫= λ _, mret (path_join dir name)).

Lemma path_join_ne_dir (dir name : pystr) : path_join dir name <> dir.
Proof.
  unfold path_join. intros Heq.
  rewrite <- (app_nil_r dir) in Heq at 2.
  apply app_inv_head in Heq. discriminate.
Qed.

(** What a save that succeeded did. *)
Lemma persist_inv (dir name content p : pystr) (w w1 : world) :
  persist dir name content w = (Ok p, w1) ->
  p = path_join dir name
  /\ files w1 = <[path_join dir name := File content]> (<[dir := Dir]> (files w))
  /\ refused w1 = refused w
  /\ refused w (path_join dir name) = false.
Proof.
  cbv [mbind M_bind bind mret M_ret ret]. unfold mkdir, write_text.
  pose proof (path_join_ne_dir dir name) as Hne.
  intros Hfirst.
  destruct (files w !! dir) as [[|c]|] eqn:Hdir; try discriminate.
  - destruct (files w !! path_join dir name) as [[|c]|] eqn:Hfile;
      try discriminate;
      destruct (refused w (path_join dir name)) eqn:Hr; try discriminate;
      inversion Hfirst; subst; cbn [files set_files refused];
      rewrite (insert_id (files w) dir Dir Hdir); auto.
  - destruct (refused w dir) eqn:Hrd; try discriminate.
    cbn [files set_files refused] in Hfirst.
    rewrite lookup_insert_ne in Hfirst by congruence.
    destruct (files w !! path_join dir name) as [[|c]|] eqn:Hfile;
      try discriminate;
      destruct (refused w (path_join dir name)) eqn:Hr; try discriminate;
      inversion Hfirst; subst; cbn [files set_files refused]; auto.
Qed.

(** Saving succeeds when the directory is not a regular file and can be
    made if it is missing, and the target is not a directory and can be
    opened; it makes the directory and the file. *)
Lemma persist_ok (dir name content : pystr) (w : world) :
  (forall x, files w !! dir <> Some (File x)) ->
  (files w !! dir = None -> refused w dir = false) ->
  files w !! path_join dir name <> Some Dir ->
  refused w (path_join dir name) = false ->
  persist dir name content w =
    (Ok (path_join dir name),
     set_files (<[path_join dir name := File content]> (<[dir := Dir]> (files w))) w).
Proof.
  intros Hdir Hmake Hfile Hopen.
  cbv [mbind M_bind bind mret M_ret ret]. unfold mkdir, write_text.
  pose proof (path_join_ne_dir dir name) as Hne.
  destruct (files w !! dir) as [[|x]|] eqn:Hd.
  - rewrite (insert_id (files w) dir Dir Hd), Hopen.
    destruct (files w !! path_join dir name) as [[|y]|];
      [exfalso; apply Hfile; reflexivity|reflexivity|reflexivity].
  - exfalso. apply (Hdir x). reflexivity.
  - rewrite (Hmake eq_refl).
    cbn [files set_files refused]. rewrite lookup_insert_ne by congruence.
    rewrite Hopen.
    destruct (files w !! path_join dir name) as [[|y]|];
      [exfalso; apply Hfile; reflexivity|reflexivity|reflexivity].
Qed.

(** A second save in the same place replaces the content of the one file
    and changes nothing else. *)
Lemma persist_twice (dir name t1 t2 p : pystr) (w w1 : world) :
  persist dir name t1 w = (Ok p, w1) ->
  p = path_join dir name
  /\ exists w2,
       persist dir name t2 w1 = (Ok p, w2)
       /\ files w2 !! p = Some (File t2)
       /\ dom (files w2) = dom (files w1)
       /\ forall q, q <> p -> files w2 !! q = files w1 !! q.
Proof.
  intros Hfirst.
  pose proof (path_join_ne_dir dir name) as Hne.
  destruct (persist_inv _ _ _ _ _ _ Hfirst) as (Hp & Hw1 & Hr1 & Hopen).
  split; [exact Hp|]. subst p.
  assert (files w1 !! dir = Some Dir) as Hdir1.
  { rewrite Hw1, lookup_insert_ne by exact Hne. apply lookup_insert_eq. }
  assert (files w1 !! path_join dir name = Some (File t1)) as Hfile1.
  { rewrite Hw1. apply lookup_insert_eq. }
  eexists. split.
  - apply persist_ok.
    + intros x. rewrite Hdir1. discriminate.
    + rewrite Hdir1. discriminate.
    + rewrite Hfile1. discriminate.
    + rewrite Hr1. exact Hopen.
  - cbn [files set_files]. rewrite (insert_id (files w1) dir Dir Hdir1).
    repeat split.
    + apply lookup_insert_eq.
    + rewrite dom_insert_L.
      apply subseteq_union_1_L, singleton_subseteq_l, elem_of_dom. eauto.
    + intros q Hq. apply lookup_insert_ne. congruence.
Qed.

End PersistenceFacts.



(** ** The two front ends side by side *)

Section FrontEndFacts.
Import Py Sys FString.
Context `{Unicode}.
Variable remote : list api_call -> api_call -> api_outcome.
Variable dotenv : gmap pystr pystr.
Variable PROJECT_DIR : pystr.









Lemma main_usage_error (argv : list pystr) (e : usage_error) (w : world) :
  Main.parse_known argv = Main.Usage e ->
  Main.main remote dotenv argv w =
    (Raise (SystemExit 2),
     add_stderr (UsageError e) (set_environ (environ w ∪ dotenv) w)).
Proof.
  intros Hp. unfold Main.main, Main.parse_args. rewrite Hp. reflexivity.
Qed.



(** A false [days], zero included, is replaced by 4 before it is clamped. *)
Lemma coerce_days_falsy (d : gmap pystr json) :
  truthy (dict_get d (lit "days")) = false -> Server.coerce_days d = 4%Z.
Proof.
  unfold Server.coerce_days, py_or. intros Hd. rewrite Hd. reflexivity.
Qed.

Lemma save_output_markdown_api_calls (destination content : pystr) (w : world) :
  api_calls (snd (Main.save_output_markdown destination content w)) = api_calls w.
Proof.
  unfold Main.save_output_markdown. cbv [mbind M_bind bind mret M_ret ret].
  pose proof (mkdir_api_calls (lit "reports") w) as Hmk.
  destruct (mkdir _ w) as [[[]|e] w1]; [|exact Hmk].
  match goal with
  | |- context [write_text ?p ?t ?w0] =>
      pose proof (write_text_api_calls p t w0) as Hwt;
      destruct (write_text p t w0) as [[[]|e] w2]
  end; simpl in *; congruence.
Qed.

(** With a key, [main] sends exactly one request, with [days] clamped to
    at least 1. *)
Lemma main_sends (argv : list pystr) (ns : Main.Namespace) (w : world)
    (key : pystr) :
  Main.parse_known argv = Main.Parsed ns ->
  Main.nonblank ((environ w ∪ dotenv) !! lit "GOOGLE_API_KEY") = Some key ->
  api_calls (snd (Main.main remote dotenv argv w)) =
    api_calls w ++
    [{| call_key := (environ w ∪ dotenv) !! lit "GOOGLE_API_KEY";
        call_model :=
          Main.resolve_model (Main.model ns)
            (Main.nonblank ((environ w ∪ dotenv) !! lit "MODEL"));
        call_contents :=
          Main.contents
            (Main.build_prompt (Main.destination ns) (Z.max 1 (Main.days ns))
               (Main.month ns) (Main.currency ns) (Main.budget ns));
        call_config := Main.generation_config |}].
Proof.
  intros Hp Hk.
  match goal with
  | |- _ = _ ++ [?c] => destruct (remote (api_calls w) c) as [text|text] eqn:Hr
  end.
  - rewrite (main_generator_raises remote dotenv argv ns w key text Hp Hk Hr).
    reflexivity.
  - rewrite (main_generator_returns remote dotenv argv ns w key text Hp Hk Hr).
    match goal with
    | |- context [Main.save_output_markdown ?d ?t ?w0] =>
        pose proof (save_output_markdown_api_calls d t w0) as Hs;
        destruct (Main.save_output_markdown d t w0) as [[p|e] w2]
    end; exact Hs.
Qed.

(** Prompts for different numbers of days differ. *)
Lemma prompts_differ (d : pystr) (m : option pystr) (c : pystr) (b : option Z) :
  Server.build_prompt d 4 m c b <> Main.build_prompt d 1 m c b.
Proof.
  unfold Server.build_prompt, Main.build_prompt.
  cbv [Server.prompt_template Main.prompt_template render].
  cbn [List.map concat render_part]. intros Heq.
  repeat (apply app_inv_head in Heq). discriminate.
Qed.

(** C10.  A POST whose [days] is zero makes the handler build the prompt
    for 4 days (zero is false, so the default replaces it before the
    clamp), a command line whose [--days] is zero makes [main] build it
    for [max(1, 0) = 1] day, and the two prompts differ. *)
Theorem front_ends_disagree_at_zero_days :
  (forall (req : Server.request) (n : Z) (d : gmap pystr json) (w : world)
          (c0 : N) (dest : pystr) (m : option pystr) (cur model : pystr)
          (k0 : N) (key : pystr),
      Server.path req = lit "/api/generate" ->
      int_of_str (default (lit "0") (Server.content_length req)) = Some n ->
      Server.loads (Server.read_body n req) = inr (JObj d) ->
      d !! lit "days" = Some (JInt 0) ->
      Server.destination_of d = Ok (c0 :: dest) ->
      Server.month_of d = Ok m ->
      Server.currency_of d = Ok cur ->
      Server.model_of d (environ w !! lit "MODEL") = Ok model ->
      environ w !! lit "GOOGLE_API_KEY" = Some (k0 :: key) ->
      api_calls (snd (Server.do_POST remote PROJECT_DIR req w)) =
        api_calls w ++
        [{| call_key := Some (k0 :: key);
            call_model := model;
            call_contents :=
              Server.contents
                (Server.build_prompt (c0 :: dest) 4 m cur (Server.coerce_budget d));
            call_config := Server.generation_config |}])
  /\ (forall (argv : list pystr) (ns : Main.Namespace) (w : world) (key : pystr),
        Main.parse_known argv = Main.Parsed ns ->
        Main.days ns = 0%Z ->
        Main.nonblank ((environ w ∪ dotenv) !! lit "GOOGLE_API_KEY") = Some key ->
        api_calls (snd (Main.main remote dotenv argv w)) =
          api_calls w ++
          [{| call_key := (environ w ∪ dotenv) !! lit "GOOGLE_API_KEY";
              call_model :=
                Main.resolve_model (Main.model ns)
                  (Main.nonblank ((environ w ∪ dotenv) !! lit "MODEL"));
              call_contents :=
                Main.contents
                  (Main.build_prompt (Main.destination ns) 1 (Main.month ns)
                     (Main.currency ns) (Main.budget ns));
              call_config := Main.generation_config |}])
  /\ (forall (d : pystr) (m : option pystr) (c : pystr) (b : option Z),
        Server.build_prompt d 4 m c b <> Main.build_prompt d 1 m c b).
Proof.
  split; [|split].
  - intros req n d w c0 dest m cur model k0 key Hpath Hn Hdata Hdays Hd Hm Hc Hmo Hk.
    rewrite (do_POST_decoded remote PROJECT_DIR req n (JObj d) w Hpath Hn Hdata).
    rewrite (generate_sends remote PROJECT_DIR d w c0 dest m cur model k0 key
               Hd Hm Hc Hmo Hk).
    rewrite (coerce_days_falsy d); [reflexivity|].
    unfold dict_get. rewrite Hdays. reflexivity.
  - intros argv ns w key Hp Hdays Hk.
    rewrite (main_sends argv ns w key Hp Hk), Hdays. reflexivity.
  - apply prompts_differ.
Qed.

(** *** A value that is not an integer, anywhere on the command line *)

Local Abbreviation stops o :=
  ((exists u, o = Main.Usage u) \/ o = Main.Help).

Local Abbreviation field_of a0 p :=
  (match a0 with Main.ADays => Some (Main.p_days p) | _ => Main.p_budget p end).

Local Abbreviation final_of a0 ns :=
  (match a0 with Main.ADays => Some (Main.days ns) | _ => Main.budget ns end).














End FrontEndFacts.



Lemma front_ends_disagree_at_zero_days_witness :
  (exists c,
     Sys.api_calls
       (snd (Server.do_POST (H := Samples.latin1) Samples.answering (Py.lit "/srv")
               (Samples.post {[ Py.lit "destination" := Py.JStr (Py.lit "Kyoto");
                                Py.lit "days" := Py.JInt 0 ]})
               Samples.keyed_world)) = [c]
     /\ Sys.call_contents c =
          Server.contents
            (Server.build_prompt (Py.lit "Kyoto") 4 None (Py.lit "INR") None))
  /\ (exists c,
        Sys.api_calls
          (snd (Main.main (H := Samples.latin1) Samples.answering ∅
                  [Py.lit "--destination"; Py.lit "Kyoto"; Py.lit "--days"; Py.lit "0"]
                  Samples.keyed_world)) = [c]
        /\ Sys.call_contents c =
             Main.contents
               (Main.build_prompt (Py.lit "Kyoto") 1 None (Py.lit "INR") None)).
Proof.
  destruct (front_ends_disagree_at_zero_days (H := Samples.latin1)
              Samples.answering ∅ (Py.lit "/srv")) as (Hhttp & Hcli & _).
  split.
  - eexists. split.
    + refine (Hhttp
        (Samples.post {[ Py.lit "destination" := Py.JStr (Py.lit "Kyoto");
                         Py.lit "days" := Py.JInt 0 ]})
        64%Z _ Samples.keyed_world 75%N (Py.lit "yoto") None (Py.lit "INR")
        (Py.lit "gemini-1.5-flash") 115%N (Py.lit "ecret")
        _ _ _ _ _ _ _ _ _); vm_compute; reflexivity.
    + reflexivity.
  - eexists. split.
    + refine (Hcli
        [Py.lit "--destination"; Py.lit "Kyoto"; Py.lit "--days"; Py.lit "0"]
        {| Main.destination := Py.lit "Kyoto"; Main.days := 0; Main.month := None;
           Main.currency := Py.lit "INR"; Main.budget := None; Main.model := None |}
        Samples.keyed_world (Py.lit "secret") _ _ _); vm_compute; reflexivity.
    + reflexivity.
Defined.

(** ** Worked examples *)

(** [São Paulo!!!] is saved as [São_Paulo.md]. *)
Example sao_paulo_filename :
  Main.sanitize_filename (H := Samples.latin1)
    [83; 227; 111; 32; 80; 97; 117; 108; 111; 33; 33; 33]%N
  = [83; 227; 111; 95; 80; 97; 117; 108; 111]%N.
Proof. reflexivity. Qed.

(** Abbreviated options, a negative number and [--name=value]. *)
Example abbreviated_command_line :
  Main.parse_known (H := Samples.latin1)
    [Py.lit "--dest=Kyoto"; Py.lit "--days"; Py.lit "-3"; Py.lit "--b=7"]
  = Main.Parsed
      {| Main.destination := Py.lit "Kyoto"; Main.days := -3; Main.month := None;
         Main.currency := Py.lit "INR"; Main.budget := Some 7%Z;
         Main.model := None |}.
Proof. vm_compute. reflexivity. Qed.

(** A successful run of the command line: the guide is printed and saved. *)
Example kyoto_run :
  let '(r, w) :=
    Main.main (H := Samples.latin1) Samples.answering ∅
      [Py.lit "--destination"; Py.lit "Kyoto"] Samples.keyed_world in
  r = Py.Ok 0%Z
  /\ Sys.files w !! Py.lit "reports/Kyoto.md" = Some (Sys.File (Py.lit "# Guide"))
  /\ Sys.stdout w =
       [Sys.Printed (Py.lit "# Guide");
        Sys.Printed (Py.newline ++ Py.lit "Saved to: reports/Kyoto.md")].
Proof. vm_compute. repeat split. Qed.

(** A float is truncated, a string is parsed, a list is replaced. *)
Example days_coercions :
  Server.coerce_days (H := Samples.latin1)
    {[ Py.lit "days" := Py.JFloat (Py.FFinite 7 (-1)) ]} = 3%Z
  /\ Server.coerce_days (H := Samples.latin1)
       {[ Py.lit "days" := Py.JStr (Py.lit " 1_0 ") ]} = 10%Z
  /\ Server.coerce_days (H := Samples.latin1)
       {[ Py.lit "days" := Py.JArr [Py.JInt 2] ]} = 4%Z
  /\ Server.coerce_days (H := Samples.latin1)
       {[ Py.lit "days" := Py.JInt (-5) ]} = 1%Z.
Proof. vm_compute. repeat split. Qed.

(** [--destination=--] leaves an empty list as the destination; the run
    goes on with it, asks for a guide to [[]] and saves it under the
    fallback name. *)
Example list_valued_destination_run :
  let '(r, w) :=
    Main.main (H := Samples.latin1) Samples.answering ∅
      [Py.lit "--destination=--"] Samples.keyed_world in
  r = Py.Ok 0%Z
  /\ Sys.files w !! Py.lit "reports/travel_guide.md"
     = Some (Sys.File (Py.lit "# Guide"))
  /\ List.map Sys.call_contents (Sys.api_calls w) =
       [Main.contents
          (Main.build_prompt (Py.lit "[]") 4 None (Py.lit "INR") None)].
Proof. vm_compute. repeat split. Qed.

(** [--days=--] leaves an empty list as the number of days; [max] raises
    on it inside the guarded call, so the run ends with status 1 before
    any request. *)
Example list_valued_days_run :
  Main.main (H := Samples.latin1) Samples.answering ∅
    [Py.lit "--destination"; Py.lit "Kyoto"; Py.lit "--days=--"] Samples.keyed_world
  = (Py.Ok 1%Z,
     Sys.add_stderr
       (Sys.Printed
          (Py.lit "ERROR: Failed to generate guide: '>' not supported between instances of 'list' and 'int'"))
       (Sys.set_environ (Sys.environ Samples.keyed_world ∪ ∅) Samples.keyed_world)).
Proof. vm_compute. reflexivity. Qed.

(** [int()] reads 4300 digits and refuses 4301. *)
Example int_digit_limit :
  Py.int_of_str (H := Samples.latin1) (repeat 49%N 4300) <> None
  /\ Py.int_of_str (H := Samples.latin1) (repeat 49%N 4301) = None
  /\ Py.int_of_str (H := Samples.latin1) (repeat 48%N 4301) = None.
Proof. vm_compute. repeat split. discriminate. Qed.

(** A report whose name the operating system refuses is not written:
    the guide is printed, then the run ends in [OSError]. *)
Example refused_report_name :
  let w0 :=
    {| Sys.environ := {[ Py.lit "GOOGLE_API_KEY" := Py.lit "secret" ]};
       Sys.files := ∅;
       Sys.refused := fun p => bool_decide (p = Py.lit "reports/Kyoto.md");
       Sys.stdout := []; Sys.stderr := []; Sys.api_calls := []; Sys.sent := [] |} in
  let '(r, w) :=
    Main.main (H := Samples.latin1) Samples.answering ∅
      [Py.lit "--destination"; Py.lit "Kyoto"] w0 in
  r = Py.Raise Py.OSError
  /\ Sys.files w = {[ Py.lit "reports" := Sys.Dir ]}
  /\ Sys.stdout w = [Sys.Printed (Py.lit "# Guide")].
Proof. vm_compute. repeat split. Qed.

(** * Further properties of the code *)

(** ** The file name, continued *)

Section FilenameMore.
Import Py.
Context `{Unicode}.

Lemma sanitize_chars (name : pystr) (c : N) :
  In c (Main.sanitize_filename name) ->
  Main.keeps c = true /\ isspace c = false.
Proof.
  unfold Main.sanitize_filename. intros Hc.
  destruct (join _ _) as [|x j] eqn:Hj.
  - apply fallback_chars. exact Hc.
  - apply In_firstn in Hc. rewrite <- Hj in Hc. apply joined_chars in Hc. exact Hc.
Qed.

Lemma sanitize_nonempty (name : pystr) : Main.sanitize_filename name <> [].
Proof.
  unfold Main.sanitize_filename.
  destruct (join _ _) as [|x j]; discriminate.
Qed.


Lemma lstrip_by_none (blank : N -> bool) (s : pystr) :
  (forall c, In c s -> blank c = false) -> lstrip_by blank s = s.
Proof.
  destruct s as [|a s]; intros Hs; [reflexivity|].
  simpl. rewrite (Hs a) by (left; reflexivity). reflexivity.
Qed.

Lemma strip_by_none (blank : N -> bool) (s : pystr) :
  (forall c, In c s -> blank c = false) -> strip_by blank s = s.
Proof.
  intros Hs. unfold strip_by, rstrip_by.
  rewrite (lstrip_by_none blank s Hs).
  rewrite lstrip_by_none; [apply rev_involutive|].
  intros c Hc. apply Hs. apply in_rev. exact Hc.
Qed.

(** A string without white space is one run. *)
Lemma split_from_none (cur s : pystr) :
  (forall c, In c s -> isspace c = false) ->
  split_from cur s =
    match rev cur ++ s with
    | [] => []
    | c :: t => [c :: t]
    end.
Proof.
  revert cur. induction s as [|a s IH]; intros cur Hs.
  - simpl. rewrite app_nil_r. destruct cur as [|y cur]; [reflexivity|].
    destruct (rev (y :: cur)) eqn:Hr; [|reflexivity].
    apply (f_equal (@length N)) in Hr. rewrite length_rev in Hr. discriminate.
  - simpl. rewrite (Hs a) by (left; reflexivity).
    rewrite IH by (intros c Hc; apply Hs; right; exact Hc).
    simpl. rewrite <- List.app_assoc. reflexivity.
Qed.

(** X1.  Sanitizing is idempotent: a sanitized name is its own file name. *)
Theorem sanitize_filename_idempotent :
  forall name : pystr,
    Main.sanitize_filename (Main.sanitize_filename name) =
    Main.sanitize_filename name.
Proof.
  intros name.
  pose proof (sanitize_chars name) as Hchars.
  pose proof (sanitize_nonempty name) as Hne.
  assert (exists l, Main.sanitize_filename name = firstn 100 l) as [l Hl].
  { unfold Main.sanitize_filename. destruct (join _ _) as [|x j].
    - exists (lit "travel_guide"). reflexivity.
    - eexists. reflexivity. }
  set (r := Main.sanitize_filename name) in *.
  unfold Main.sanitize_filename at 1.
  rewrite (filter_all _ r) by (intros c Hc; apply Hchars; exact Hc).
  unfold strip.
  rewrite (strip_by_none isspace r) by (intros c Hc; apply Hchars; exact Hc).
  unfold split.
  rewrite split_from_none by (intros c Hc; apply Hchars; exact Hc).
  simpl rev. simpl app.
  destruct r as [|x r'] eqn:Hr; [congruence|].
  cbn [join]. rewrite Hl, firstn_firstn. reflexivity.
Qed.

(** X2.  The file name is never empty and holds no slash, backslash, dot,
    colon or NUL, whatever the character database says outside ASCII: the
    report is always a file directly inside the reports directory. *)
Theorem sanitize_filename_stays_inside :
  forall name : pystr,
    Main.sanitize_filename name <> []
    /\ forall c, In c (Main.sanitize_filename name) ->
         c <> 47 /\ c <> 92 /\ c <> 46 /\ c <> 58 /\ c <> 0.
Proof.
  intros name. split; [apply sanitize_nonempty|].
  intros c Hc. apply sanitize_chars in Hc as [Hk _].
  repeat split; intros ->; discriminate Hk.
Qed.

End FilenameMore.

(** ** The prompt, continued *)

Section PromptMore.
Import Py FString.

Lemma contains_slice (i j : nat) (ps : list part) :
  contains (render (firstn j (skipn i ps))) (render ps) = true.
Proof.
  rewrite <- (firstn_skipn i ps) at 2.
  rewrite <- (firstn_skipn j (skipn i ps)) at 2.
  rewrite !render_app. apply contains_infix.
Qed.

Ltac slice_at i j :=
  match goal with
  | |- contains _ (render ?ps) = true => exact (contains_slice i j ps)
  end.

(** X3.  Whatever the request, the prompt names the destination in its
    first sentence and in the quoted title, gives the currency in the
    cost heading, and gives the day count in the example total and in
    the itinerary heading, each verbatim. *)
Theorem prompt_interpolates_fields :
  forall (d : pystr) (n : Z) (m : option pystr) (c : pystr) (b : option Z),
    let prompt := Main.build_prompt d n m c b in
    contains
      (lit "You are an expert travel planner. Generate a complete, accurate, and helpful travel guide in clear Markdown for the destination: "
       ++ d ++ lit ".") prompt = true
    /\ contains
         (lit "1. Title: " ++ dquote ++ lit "Rupam's Travel Guide: " ++ d ++ dquote)
         prompt = true
    /\ contains (lit "5. Approximate costs in " ++ c ++ lit ":") prompt = true
    /\ contains (lit "   - Example total for " ++ str_of_int n ++ lit " days")
         prompt = true
    /\ contains
         (lit "9. Itinerary for " ++ str_of_int n ++
          lit " days: for each day, outline morning/afternoon/evening with 2-3 attraction ideas, approximate visit durations, transit suggestions, timing tips, and alternatives for rain/peak heat")
         prompt = true
    /\ Server.build_prompt d n m c b = prompt.
Proof.
  intros d n m c b prompt. subst prompt. unfold Main.build_prompt.
  repeat split.
  - slice_at 1%nat 3%nat.
  - slice_at 9%nat 5%nat.
  - slice_at 21%nat 3%nat.
  - slice_at 29%nat 3%nat.
  - slice_at 42%nat 3%nat.
Qed.

End PromptMore.

(** ** Saving, continued *)

Section PersistenceMore.
Import Py Sys.

Local Abbreviation persist dir name content :=
  (mkdir dir ≫= λ _, write_text (path_join dir name) content
                       ≫= λ _, mret (path_join dir name)).


End PersistenceMore.

(** ** The command line, continued *)

Section CliMore.
Import Py Sys.
Context `{Unicode}.
Variable remote : list api_call -> api_call -> api_outcome.
Variable dotenv : gmap pystr pystr.

Local Abbreviation request_of env ns :=
  {| call_key := env !! lit "GOOGLE_API_KEY";
     call_model :=
       Main.resolve_model (Main.model ns) (Main.nonblank (env !! lit "MODEL"));
     call_contents :=
       Main.contents
         (Main.build_prompt (Main.destination ns) (Z.max 1 (Main.days ns))
            (Main.month ns) (Main.currency ns) (Main.budget ns));
     call_config := Main.generation_config |}.

Local Abbreviation report_path ns :=
  (path_join (lit "reports")
     (Main.sanitize_filename (Main.destination ns) ++ lit ".md")).



(** X6.  The model sent is the [--model] flag when it is given and not
    empty, else the [MODEL] variable when it is set and not blank, else
    [gemini-1.5-flash]. *)
Theorem cli_model_precedence :
  forall (argv : list pystr) (ns : Main.Namespace) (w : world) (key : pystr),
    Main.parse_known argv = Main.Parsed ns ->
    Main.nonblank ((environ w ∪ dotenv) !! lit "GOOGLE_API_KEY") = Some key ->
    exists c,
      api_calls (snd (Main.main remote dotenv argv w)) = api_calls w ++ [c]
      /\ (forall a flag, Main.model ns = Some (a :: flag) ->
            call_model c = a :: flag)
      /\ (forall a env_model,
            truthy_opt (Main.model ns) = false ->
            (environ w ∪ dotenv) !! lit "MODEL" = Some (a :: env_model) ->
            strip (a :: env_model) <> [] ->
            call_model c = a :: env_model)
      /\ (truthy_opt (Main.model ns) = false ->
          (forall v, (environ w ∪ dotenv) !! lit "MODEL" = Some v -> strip v = []) ->
          call_model c = lit "gemini-1.5-flash").
Proof.
  intros argv ns w key Hp Hk. eexists. split.
  - apply (main_sends remote dotenv argv ns w key Hp Hk).
  - cbn [call_model]. unfold Main.resolve_model, Main.or_else. repeat split.
    + intros a flag Hflag. rewrite Hflag. reflexivity.
    + intros a env_model Hflag Henv Hstrip. rewrite Hflag, Henv.
      unfold Main.nonblank. cbn [truthy_opt fmap option_fmap option_map andb].
      destruct (strip (a :: env_model)); [congruence|reflexivity].
    + intros Hflag Henv. rewrite Hflag.
      destruct ((environ w ∪ dotenv) !! lit "MODEL") as [v|] eqn:Hv;
        [|reflexivity].
      unfold Main.nonblank. cbn [fmap option_fmap option_map].
      rewrite (Henv v eq_refl). rewrite andb_false_r. reflexivity.
Qed.

(** X7.  A variable of the process environment wins over the [.env]
    file even when it is blank: with a blank [GOOGLE_API_KEY] in the
    process environment the run ends with status 2 whatever the file
    holds, and only when the process has none does the key of the file
    reach the request. *)
Theorem cli_process_environment_wins :
  forall (argv : list pystr) (ns : Main.Namespace) (w : world),
    Main.parse_known argv = Main.Parsed ns ->
    (forall v,
       environ w !! lit "GOOGLE_API_KEY" = Some v -> strip v = [] ->
       fst (Main.main remote dotenv argv w) = Ok 2%Z
       /\ api_calls (snd (Main.main remote dotenv argv w)) = api_calls w)
    /\ (forall key,
          environ w !! lit "GOOGLE_API_KEY" = None ->
          Main.nonblank (dotenv !! lit "GOOGLE_API_KEY") = Some key ->
          exists c,
            api_calls (snd (Main.main remote dotenv argv w)) = api_calls w ++ [c]
            /\ call_key c = Some key).
Proof.
  intros argv ns w Hp. split.
  - intros v Hv Hs.
    assert (Main.nonblank ((environ w ∪ dotenv) !! lit "GOOGLE_API_KEY") = None)
      as Hk.
    { rewrite (lookup_union_Some_l _ _ _ _ Hv). unfold Main.nonblank.
      cbn [fmap option_fmap option_map]. rewrite Hs, andb_false_r. reflexivity. }
    rewrite (main_without_key remote dotenv argv ns w Hp Hk). split; reflexivity.
  - intros key Hnone Hk.
    assert ((environ w ∪ dotenv) !! lit "GOOGLE_API_KEY" =
            dotenv !! lit "GOOGLE_API_KEY") as Heq
      by (apply lookup_union_r; exact Hnone).
    assert (dotenv !! lit "GOOGLE_API_KEY" = Some key) as Hd.
    { unfold Main.nonblank in Hk.
      destruct (truthy_opt _ && truthy_opt _); [exact Hk|discriminate]. }
    eexists. split.
    + apply (main_sends remote dotenv argv ns w key Hp). rewrite Heq. exact Hk.
    + cbn [call_key]. rewrite Heq. exact Hd.
Qed.

(** A run on a namespace that holds an empty list sends at most one
    request as well. *)
Lemma main_list_stored_sends (argv : list pystr) (args : Main.Args) (w : world) :
  Main.parse_known argv = Main.ListStored args ->
  api_calls (snd (Main.main remote dotenv argv w)) = api_calls w
  \/ exists c,
       api_calls (snd (Main.main remote dotenv argv w)) = api_calls w ++ [c].
Proof.
  intros Hp. unfold Main.main, Main.parse_args. rewrite Hp.
  cbv [mbind M_bind bind mret M_ret ret Main.load_environment_variables
       Main.get_env_variable getenv write_stderr write_stdout try_except lift
       Main.generate_travel_guide Main.generate_content].
  destruct (negb _); [left; reflexivity|].
  destruct (Main.a_days args) as [n|]; [|left; reflexivity].
  cbn [Main.at_least_one].
  destruct (remote _ _) as [text|text]; [right; eexists; reflexivity|].
  right. eexists.
  match goal with
  | |- context [Main.save_output_markdown ?d ?t ?w0] =>
      pose proof (save_output_markdown_api_calls d t w0) as Hs;
      destruct (Main.save_output_markdown d t w0) as [[p|e] w2]
  end; exact Hs.
Qed.

(** X8.  [main] sends at most one request, whatever the command line.
    When argparse rejects the command line the run ends with status 2,
    and when it prints the help with status 0; in both cases no request is
    sent and no file is touched. *)
Theorem cli_at_most_one_request :
  forall (argv : list pystr) (w : world),
    (api_calls (snd (Main.main remote dotenv argv w)) = api_calls w
     \/ exists c,
          api_calls (snd (Main.main remote dotenv argv w)) = api_calls w ++ [c])
    /\ (forall e, Main.parse_known argv = Main.Usage e ->
          fst (Main.main remote dotenv argv w) = Raise (SystemExit 2)
          /\ api_calls (snd (Main.main remote dotenv argv w)) = api_calls w
          /\ files (snd (Main.main remote dotenv argv w)) = files w)
    /\ (Main.parse_known argv = Main.Help ->
        fst (Main.main remote dotenv argv w) = Raise (SystemExit 0)
        /\ api_calls (snd (Main.main remote dotenv argv w)) = api_calls w
        /\ files (snd (Main.main remote dotenv argv w)) = files w).
Proof.
  intros argv w. split; [|split].
  - destruct (Main.parse_known argv) as [ns|e| |args] eqn:Hp.
    + destruct (Main.nonblank ((environ w ∪ dotenv) !! lit "GOOGLE_API_KEY"))
        as [key|] eqn:Hk.
      * right. eexists. apply (main_sends remote dotenv argv ns w key Hp Hk).
      * left. rewrite (main_without_key remote dotenv argv ns w Hp Hk). reflexivity.
    + rewrite (main_usage_error remote dotenv argv e w Hp). left. reflexivity.
    + unfold Main.main, Main.parse_args. rewrite Hp. left. reflexivity.
    + apply (main_list_stored_sends argv args w Hp).
  - intros e Hp. rewrite (main_usage_error remote dotenv argv e w Hp).
    repeat split.
  - intros Hp. unfold Main.main, Main.parse_args. rewrite Hp. repeat split.
Qed.

End CliMore.

(** ** Trimming *)

Section StripFacts.
Import Py.
Variable blank : N -> bool.

Lemma lstrip_by_idem (s : pystr) :
  lstrip_by blank (lstrip_by blank s) = lstrip_by blank s.
Proof.
  induction s as [|a s IH]; [reflexivity|].
  simpl. destruct (blank a) eqn:Ha; [exact IH|].
  simpl. rewrite Ha. reflexivity.
Qed.

Lemma lstrip_by_head (s : pystr) (a : N) (t : pystr) :
  lstrip_by blank s = a :: t -> blank a = false.
Proof.
  induction s as [|x s IH]; [discriminate|].
  simpl. destruct (blank x) eqn:Hx; [exact IH|].
  intros Heq. inversion Heq; subst. exact Hx.
Qed.

Lemma lstrip_by_app_last (l : pystr) (a : N) :
  blank a = false -> lstrip_by blank (l ++ [a]) = lstrip_by blank l ++ [a].
Proof.
  intros Ha. induction l as [|x l IH]; simpl.
  - rewrite Ha. reflexivity.
  - destruct (blank x); [exact IH|reflexivity].
Qed.

Lemma rstrip_by_cons (a : N) (t : pystr) :
  blank a = false -> rstrip_by blank (a :: t) = a :: rstrip_by blank t.
Proof.
  intros Ha. unfold rstrip_by. simpl rev.
  rewrite (lstrip_by_app_last _ _ Ha). apply rev_unit.
Qed.

Lemma rstrip_by_idem (s : pystr) :
  rstrip_by blank (rstrip_by blank s) = rstrip_by blank s.
Proof.
  unfold rstrip_by. rewrite rev_involutive, lstrip_by_idem. reflexivity.
Qed.

(** Trimming twice is trimming once. *)
Lemma strip_by_idem (s : pystr) :
  strip_by blank (strip_by blank s) = strip_by blank s.
Proof.
  unfold strip_by. destruct (lstrip_by blank s) as [|a t] eqn:Hs; [reflexivity|].
  pose proof (lstrip_by_head s a t Hs) as Ha.
  rewrite (rstrip_by_cons a t Ha). simpl lstrip_by. rewrite Ha.
  rewrite <- (rstrip_by_cons a t Ha). apply rstrip_by_idem.
Qed.

End StripFacts.

(** ** The handler, continued *)

Section ServerMore.
Import Py Sys.
Context `{Unicode}.
Variable remote : list api_call -> api_call -> api_outcome.
Variable PROJECT_DIR : pystr.

Local Abbreviation request_for key model destination month currency d :=
  {| call_key := key;
     call_model := model;
     call_contents :=
       Server.contents
         (Server.build_prompt destination (Server.coerce_days d) month currency
            (Server.coerce_budget d));
     call_config := Server.generation_config |}.

Local Abbreviation saved_path destination :=
  (path_join (Server.REPORTS_DIR PROJECT_DIR)
     (Server.sanitize_filename destination ++ lit ".md")).

(** What [do_POST] does once the fields of the object are read. *)
Lemma generate_with_fields (d : gmap pystr json) (w : world)
    (c0 : N) (dest : pystr) (m : option pystr) (cur model : pystr) :
  Server.destination_of d = Ok (c0 :: dest) ->
  Server.month_of d = Ok m ->
  Server.currency_of d = Ok cur ->
  Server.model_of d (environ w !! lit "MODEL") = Ok model ->
  Server.generate remote PROJECT_DIR (JObj d) w =
    if negb (truthy_opt (environ w !! lit "GOOGLE_API_KEY")) then
      (Ok tt,
       add_sent {| status := 500;
                   payload := Server.error_body (lit "GOOGLE_API_KEY not set") |} w)
    else
      let c := request_for (environ w !! lit "GOOGLE_API_KEY") model
                 (c0 :: dest) m cur d in
      match remote (api_calls w) c with
      | ApiRaises text =>
          (Ok tt,
           add_sent {| status := 500;
                       payload := Server.error_body (lit "Failed to generate: " ++ text) |}
             (add_call c w))
      | ApiReturns text =>
          match Server.save_report PROJECT_DIR (c0 :: dest)
                  (strip (default [] text)) (add_call c w) with
          | (Ok p, w2) =>
              (Ok tt,
               add_sent {| status := 200;
                           payload := [(lit "ok", JBool true);
                                       (lit "markdown", JStr (strip (default [] text)));
                                       (lit "saved", JStr p)] |} w2)
          | (Raise e, w2) => (Raise e, w2)
          end
      end.
Proof.
  intros Hd Hm Hc Hmo. unfold Server.generate.
  cbv [mbind M_bind bind lift Server.get_method getenv mret M_ret ret
       try_except Server.generate_content].
  rewrite Hd, Hm, Hc, Hmo.
  destruct (negb (truthy_opt (environ w !! lit "GOOGLE_API_KEY"))); [reflexivity|].
  cbn zeta. destruct (remote _ _) as [text|text]; cbn [is_Exception]; [reflexivity|].
  destruct (Server.save_report _ _ _ _) as [[p|e] w2]; reflexivity.
Qed.

Lemma mkdir_sent (p : pystr) (w : world) : sent (snd (mkdir p w)) = sent w.
Proof. unfold mkdir. destruct (files w !! p) as [[|c]|]; try destruct (refused w p); reflexivity. Qed.

Lemma write_text_sent (p content : pystr) (w : world) :
  sent (snd (write_text p content w)) = sent w.
Proof. unfold write_text. destruct (files w !! p) as [[|c]|]; try destruct (refused w p); reflexivity. Qed.

Lemma save_report_sent (destination content : pystr) (w : world) :
  sent (snd (Server.save_report PROJECT_DIR destination content w)) = sent w.
Proof.
  unfold Server.save_report. cbv [mbind M_bind bind mret M_ret ret].
  pose proof (mkdir_sent (Server.REPORTS_DIR PROJECT_DIR) w) as Hmk.
  destruct (mkdir _ w) as [[[]|e] w1]; [|exact Hmk].
  match goal with
  | |- context [write_text ?p ?t ?w0] =>
      pose proof (write_text_sent p t w0) as Hwt;
      destruct (write_text p t w0) as [[[]|e] w2]
  end; simpl in *; congruence.
Qed.

(** X9.  The handler has no answer for a body that is valid JSON but not
    an object, or whose [destination] is a true value that is not a
    string (a number, [true], a non-empty list or object): it ends in
    [AttributeError] before any response is sent or any request made. *)
Theorem post_with_untyped_destination_crashes :
  forall (req : Server.request) (n : Z) (data : json) (w : world),
    Server.path req = lit "/api/generate" ->
    int_of_str (default (lit "0") (Server.content_length req)) = Some n ->
    Server.loads (Server.read_body n req) = inr data ->
    ((forall d, data <> JObj d)
     \/ exists d v,
          data = JObj d /\ d !! lit "destination" = Some v
          /\ truthy v = true /\ forall s, v <> JStr s) ->
    Server.do_POST remote PROJECT_DIR req w = (Raise AttributeError, w).
Proof.
  intros req n data w Hpath Hn Hdata Hbad.
  rewrite (do_POST_decoded remote PROJECT_DIR req n data w Hpath Hn Hdata).
  unfold Server.generate. cbv [mbind M_bind bind lift].
  destruct Hbad as [Hno|(d & v & -> & Hv & Ht & Hs)].
  - destruct data; try reflexivity. exfalso. apply (Hno fields). reflexivity.
  - assert (Server.destination_of d = Raise AttributeError) as Hd.
    { unfold Server.destination_of, dict_get, py_or. rewrite Hv. simpl.
      rewrite Ht. destruct v; try reflexivity. exfalso. apply (Hs s). reflexivity. }
    cbn [Server.get_method]. rewrite Hd. reflexivity.
Qed.

(** X10.  Without a key in the environment, a well-formed request is
    answered 500 with [GOOGLE_API_KEY not set]; no request is made and no
    file is written. *)
Theorem post_without_key_is_500 :
  forall (req : Server.request) (n : Z) (d : gmap pystr json) (w : world)
         (c0 : N) (dest : pystr) (m : option pystr) (cur model : pystr),
    Server.path req = lit "/api/generate" ->
    int_of_str (default (lit "0") (Server.content_length req)) = Some n ->
    Server.loads (Server.read_body n req) = inr (JObj d) ->
    Server.destination_of d = Ok (c0 :: dest) ->
    Server.month_of d = Ok m ->
    Server.currency_of d = Ok cur ->
    Server.model_of d (environ w !! lit "MODEL") = Ok model ->
    truthy_opt (environ w !! lit "GOOGLE_API_KEY") = false ->
    exists w',
      Server.do_POST remote PROJECT_DIR req w = (Ok tt, w')
      /\ sent w' =
           sent w ++
           [{| status := 500;
               payload := [(lit "ok", JBool false);
                           (lit "error", JStr (lit "GOOGLE_API_KEY not set"))] |}]
      /\ api_calls w' = api_calls w
      /\ files w' = files w.
Proof.
  intros req n d w c0 dest m cur model Hpath Hn Hdata Hd Hm Hc Hmo Hk.
  rewrite (do_POST_decoded remote PROJECT_DIR req n (JObj d) w Hpath Hn Hdata).
  rewrite (generate_with_fields d w c0 dest m cur model Hd Hm Hc Hmo), Hk.
  eexists. split; [reflexivity|]. repeat split.
Qed.

(** X11.  When the API client raises, the handler answers 500 with
    [Failed to generate: ] followed by the text of the exception, after
    one request and without writing a file. *)
Theorem post_generator_failure_is_500 :
  forall (req : Server.request) (n : Z) (d : gmap pystr json) (w : world)
         (c0 : N) (dest : pystr) (m : option pystr) (cur model : pystr)
         (k0 : N) (key text : pystr),
    Server.path req = lit "/api/generate" ->
    int_of_str (default (lit "0") (Server.content_length req)) = Some n ->
    Server.loads (Server.read_body n req) = inr (JObj d) ->
    Server.destination_of d = Ok (c0 :: dest) ->
    Server.month_of d = Ok m ->
    Server.currency_of d = Ok cur ->
    Server.model_of d (environ w !! lit "MODEL") = Ok model ->
    environ w !! lit "GOOGLE_API_KEY" = Some (k0 :: key) ->
    remote (api_calls w)
      (request_for (Some (k0 :: key)) model (c0 :: dest) m cur d) = ApiRaises text ->
    exists w',
      Server.do_POST remote PROJECT_DIR req w = (Ok tt, w')
      /\ sent w' =
           sent w ++
           [{| status := 500;
               payload := [(lit "ok", JBool false);
                           (lit "error", JStr (lit "Failed to generate: " ++ text))] |}]
      /\ api_calls w' =
           api_calls w ++ [request_for (Some (k0 :: key)) model (c0 :: dest) m cur d]
      /\ files w' = files w.
Proof.
  intros req n d w c0 dest m cur model k0 key text
    Hpath Hn Hdata Hd Hm Hc Hmo Hk Hr.
  rewrite (do_POST_decoded remote PROJECT_DIR req n (JObj d) w Hpath Hn Hdata).
  rewrite (generate_with_fields d w c0 dest m cur model Hd Hm Hc Hmo), Hk.
  cbn [truthy_opt negb]. cbn zeta. rewrite Hr.
  eexists. split; [reflexivity|]. repeat split.
Qed.

(** X12.  When the API answers, the reports directory is there or can be
    made, and the operating system lets the handler open the report file
    (it is no directory, and its name is not refused, as one too long for
    the file system would be), the handler answers 200; the file named by
    [saved] then holds exactly the text sent back as [markdown], which is
    the trimmed answer. *)
Theorem post_success_is_200 :
  forall (req : Server.request) (n : Z) (d : gmap pystr json) (w : world)
         (c0 : N) (dest : pystr) (m : option pystr) (cur model : pystr)
         (k0 : N) (key : pystr) (text : option pystr),
    Server.path req = lit "/api/generate" ->
    int_of_str (default (lit "0") (Server.content_length req)) = Some n ->
    Server.loads (Server.read_body n req) = inr (JObj d) ->
    Server.destination_of d = Ok (c0 :: dest) ->
    Server.month_of d = Ok m ->
    Server.currency_of d = Ok cur ->
    Server.model_of d (environ w !! lit "MODEL") = Ok model ->
    environ w !! lit "GOOGLE_API_KEY" = Some (k0 :: key) ->
    remote (api_calls w)
      (request_for (Some (k0 :: key)) model (c0 :: dest) m cur d) = ApiReturns text ->
    (forall x, files w !! Server.REPORTS_DIR PROJECT_DIR <> Some (File x)) ->
    (files w !! Server.REPORTS_DIR PROJECT_DIR = None ->
     refused w (Server.REPORTS_DIR PROJECT_DIR) = false) ->
    files w !! saved_path (c0 :: dest) <> Some Dir ->
    refused w (saved_path (c0 :: dest)) = false ->
    exists w',
      Server.do_POST remote PROJECT_DIR req w = (Ok tt, w')
      /\ sent w' =
           sent w ++
           [{| status := 200;
               payload := [(lit "ok", JBool true);
                           (lit "markdown", JStr (strip (default [] text)));
                           (lit "saved", JStr (saved_path (c0 :: dest)))] |}]
      /\ files w' !! saved_path (c0 :: dest) =
           Some (File (strip (default [] text)))
      /\ (forall q, q <> saved_path (c0 :: dest) ->
                    q <> Server.REPORTS_DIR PROJECT_DIR ->
                    files w' !! q = files w !! q).
Proof.
  intros req n d w c0 dest m cur model k0 key text
    Hpath Hn Hdata Hd Hm Hc Hmo Hk Hr Hdir Hmake Hfile Hopen.
  rewrite (do_POST_decoded remote PROJECT_DIR req n (JObj d) w Hpath Hn Hdata).
  rewrite (generate_with_fields d w c0 dest m cur model Hd Hm Hc Hmo), Hk.
  cbn [truthy_opt negb]. cbn zeta. rewrite Hr.
  unfold Server.save_report.
  rewrite persist_ok by assumption.
  eexists. split; [reflexivity|]. cbn [sent files add_sent set_files add_call].
  repeat split.
  - apply lookup_insert_eq.
  - intros q Hq Hq'. rewrite !lookup_insert_ne by congruence. reflexivity.
Qed.

(** X13.  A body that cannot be decoded or parsed is answered 400 with
    [Invalid JSON: ] followed by the text of the exception; nothing else
    happens. *)
Theorem post_invalid_json_is_400 :
  forall (req : Server.request) (n : Z) (text : pystr) (w : world),
    Server.path req = lit "/api/generate" ->
    int_of_str (default (lit "0") (Server.content_length req)) = Some n ->
    n <> 0%Z ->
    Server.sent_body req = Server.Undecodable text ->
    Server.do_POST remote PROJECT_DIR req w =
      (Ok tt,
       add_sent {| status := 400;
                   payload := [(lit "ok", JBool false);
                               (lit "error", JStr (lit "Invalid JSON: " ++ text))] |} w).
Proof.
  intros req n text w Hpath Hn Hn0 Hbody. unfold Server.do_POST.
  rewrite bool_decide_eq_true_2 by exact Hpath. cbn [negb].
  cbv [mbind M_bind bind lift]. rewrite Hn. unfold Server.read_body.
  destruct (Z.eqb_spec n 0) as [Hz|_]; [contradiction|].
  rewrite Hbody. reflexivity.
Qed.

(** X14.  Without a [Content-Length] header, or with one that reads as
    zero, the body is never read: whatever the client sent, the answer is
    400 with ['destination' is required]. *)
Theorem post_without_length_is_400 :
  forall (req : Server.request) (w : world),
    Server.path req = lit "/api/generate" ->
    (Server.content_length req = None
     \/ int_of_str (default (lit "0") (Server.content_length req)) = Some 0%Z) ->
    Server.do_POST remote PROJECT_DIR req w =
      (Ok tt,
       add_sent {| status := 400;
                   payload := [(lit "ok", JBool false);
                               (lit "error", JStr (lit "'destination' is required"))] |} w).
Proof.
  intros req w Hpath Hlen.
  assert (int_of_str (default (lit "0") (Server.content_length req)) = Some 0%Z)
    as Hn by (destruct Hlen as [-> | Hn]; [reflexivity|exact Hn]).
  rewrite (do_POST_decoded remote PROJECT_DIR req 0 (JObj ∅) w Hpath Hn eq_refl).
  apply generate_without_destination. reflexivity.
Qed.

(** X15.  The handler answers at most once: when [do_POST] returns it
    has sent exactly one response, with status 200, 400 or 500, and when
    it raises it has sent none; in both cases it has made at most one
    request to the API. *)
Theorem post_sends_one_response :
  forall (req : Server.request) (w : world),
    match Server.do_POST remote PROJECT_DIR req w with
    | (Ok _, w') =>
        exists r, sent w' = sent w ++ [r]
                  /\ (status r = 200 \/ status r = 400 \/ status r = 500)%Z
    | (Raise _, w') => sent w' = sent w
    end
    /\ (api_calls (snd (Server.do_POST remote PROJECT_DIR req w)) = api_calls w
        \/ exists c,
             api_calls (snd (Server.do_POST remote PROJECT_DIR req w)) =
             api_calls w ++ [c]).
Proof.
  intros req w. unfold Server.do_POST.
  destruct (negb (bool_decide (Server.path req = lit "/api/generate")));
    [split; [reflexivity|left; reflexivity]|].
  cbv [mbind M_bind bind lift].
  destruct (int_of_str _) as [n|]; [|split; [reflexivity|left; reflexivity]].
  destruct (Server.loads _) as [text|data].
  { split; [|left; reflexivity]. eexists. split; [reflexivity|]. right. left. reflexivity. }
  destruct data as [| | | | |items|d];
    try (split; [reflexivity|left; reflexivity]).
  destruct (Server.destination_of d) as [[|c0 dest]|e] eqn:Hd.
  - rewrite (generate_without_destination remote PROJECT_DIR d w Hd).
    split; [|left; reflexivity].
    eexists. split; [reflexivity|]. right. left. reflexivity.
  - destruct (Server.month_of d) as [m|e] eqn:Hm.
    2:{ unfold Server.generate. cbv [mbind M_bind bind lift Server.get_method].
        rewrite Hd, Hm. split; [reflexivity|left; reflexivity]. }
    destruct (Server.currency_of d) as [cur|e] eqn:Hc.
    2:{ unfold Server.generate. cbv [mbind M_bind bind lift Server.get_method].
        rewrite Hd, Hm, Hc. split; [reflexivity|left; reflexivity]. }
    destruct (Server.model_of d (environ w !! lit "MODEL")) as [model|e] eqn:Hmo.
    2:{ unfold Server.generate.
        cbv [mbind M_bind bind lift Server.get_method getenv].
        rewrite Hd, Hm, Hc, Hmo. split; [reflexivity|left; reflexivity]. }
    rewrite (generate_with_fields d w c0 dest m cur model Hd Hm Hc Hmo).
    destruct (negb _).
    { split; [|left; reflexivity].
      eexists. split; [reflexivity|]. right. right. reflexivity. }
    cbn zeta. destruct (remote _ _) as [text|text].
    { split; [|right; eexists; reflexivity].
      eexists. split; [reflexivity|]. right. right. reflexivity. }
    match goal with
    | |- context [Server.save_report ?dir ?dst ?t ?w0] =>
        pose proof (save_report_sent dst t w0) as Hs;
        pose proof (save_report_api_calls PROJECT_DIR dst t w0) as Ha;
        destruct (Server.save_report dir dst t w0) as [[p|e] w2]
    end; cbn [snd] in *.
    + split; [|right; eexists; exact Ha].
      eexists. split; [cbn [sent add_sent]; rewrite Hs; reflexivity|].
      left. reflexivity.
    + split; [exact Hs|right; eexists; exact Ha].
  - unfold Server.generate. cbv [mbind M_bind bind lift Server.get_method].
    rewrite Hd. split; [reflexivity|left; reflexivity].
Qed.

(** X16.  The day count that reaches the prompt is never below 1,
    whatever [days] holds; for an integer other than zero it is
    [max(1, days)]. *)
Theorem handler_days_at_least_one :
  forall d : gmap pystr json,
    (1 <= Server.coerce_days d)%Z
    /\ forall n, d !! lit "days" = Some (JInt n) -> n <> 0%Z ->
                 Server.coerce_days d = Z.max 1 n.
Proof.
  intros d. split.
  - unfold Server.coerce_days. destruct (py_int _); lia.
  - intros n Hn Hn0. unfold Server.coerce_days, py_or, dict_get.
    rewrite Hn. simpl.
    destruct (Z.eqb_spec n 0) as [Hz|_]; [contradiction|reflexivity].
Qed.

(** X17.  The text fields that the handler passes on are trimmed: the
    destination, the month, the currency and the model have no white
    space at either end, a month is never empty, and neither is the
    currency. *)
Theorem handler_fields_are_trimmed :
  forall d : gmap pystr json,
    (forall x, Server.destination_of d = Ok x -> strip x = x)
    /\ (forall m, Server.month_of d = Ok (Some m) -> m <> [] /\ strip m = m)
    /\ (forall c, Server.currency_of d = Ok c -> c <> [] /\ strip c = c)
    /\ (forall env mo, Server.model_of d env = Ok mo -> strip mo = mo).
Proof.
  assert (forall v x, Server.strip_value v = Ok x -> strip x = x) as Hstrip.
  { intros v x Hv. destruct v; try discriminate. inversion Hv.
    apply (strip_by_idem isspace). }
  intros d. split; [|split; [|split]].
  - intros x Hx. apply (Hstrip _ _ Hx).
  - intros m Hm. unfold Server.month_of in Hm.
    destruct (Server.strip_value _) as [[|c s]|e] eqn:Hv; inversion Hm; subst.
    split; [discriminate|apply (Hstrip _ _ Hv)].
  - intros c Hc. unfold Server.currency_of in Hc.
    destruct (Server.strip_value _) as [[|c0 s]|e] eqn:Hv; inversion Hc; subst.
    + split; [discriminate|reflexivity].
    + split; [discriminate|apply (Hstrip _ _ Hv)].
  - intros env mo Hmo. apply (Hstrip _ _ Hmo).
Qed.

End ServerMore.

(** ** The two front ends, continued *)

Section FrontEndMore.
Import Py Sys.
Context `{Unicode}.
Variable remote : list api_call -> api_call -> api_outcome.
Variable dotenv : gmap pystr pystr.
Variable PROJECT_DIR : pystr.

(** X18.  A key made of white space only is no key for the command line,
    which strips it and ends with status 2, but is a key for the handler,
    which does not strip it and sends the request with it. *)
Theorem blank_key_is_a_key_for_the_handler_only :
  forall (a : N) (s : pystr),
    strip (a :: s) = [] ->
    (forall (argv : list pystr) (ns : Main.Namespace) (w : world),
        Main.parse_known argv = Main.Parsed ns ->
        (environ w ∪ dotenv) !! lit "GOOGLE_API_KEY" = Some (a :: s) ->
        fst (Main.main remote dotenv argv w) = Ok 2%Z
        /\ api_calls (snd (Main.main remote dotenv argv w)) = api_calls w)
    /\ (forall (req : Server.request) (n : Z) (d : gmap pystr json) (w : world)
               (c0 : N) (dest : pystr) (m : option pystr) (cur model : pystr),
          Server.path req = lit "/api/generate" ->
          int_of_str (default (lit "0") (Server.content_length req)) = Some n ->
          Server.loads (Server.read_body n req) = inr (JObj d) ->
          Server.destination_of d = Ok (c0 :: dest) ->
          Server.month_of d = Ok m ->
          Server.currency_of d = Ok cur ->
          Server.model_of d (environ w !! lit "MODEL") = Ok model ->
          environ w !! lit "GOOGLE_API_KEY" = Some (a :: s) ->
          exists c,
            api_calls (snd (Server.do_POST remote PROJECT_DIR req w)) =
              api_calls w ++ [c]
            /\ call_key c = Some (a :: s)).
Proof.
  intros a s Hblank. split.
  - intros argv ns w Hp Hk.
    assert (Main.nonblank ((environ w ∪ dotenv) !! lit "GOOGLE_API_KEY") = None)
      as Hnone.
    { rewrite Hk. unfold Main.nonblank. cbn [fmap option_fmap option_map].
      rewrite Hblank. reflexivity. }
    rewrite (main_without_key remote dotenv argv ns w Hp Hnone).
    split; reflexivity.
  - intros req n d w c0 dest m cur model Hpath Hn Hdata Hd Hm Hc Hmo Hk.
    rewrite (do_POST_decoded remote PROJECT_DIR req n (JObj d) w Hpath Hn Hdata).
    rewrite (generate_sends remote PROJECT_DIR d w c0 dest m cur model a s
               Hd Hm Hc Hmo Hk).
    eexists. split; reflexivity.
Qed.

End FrontEndMore.

(** ** The further properties at sample inputs *)

Lemma sanitize_filename_stays_inside_witness :
  (101 <> 47)%N.
Proof.
  destruct (sanitize_filename_stays_inside (H := Samples.latin1)
              (Py.lit "../etc/passwd")) as [_ Hinside].
  apply (Hinside 101%N).
  vm_compute. left. reflexivity.
Defined.



Lemma cli_model_precedence_witness :
  exists c,
    Sys.api_calls
      (snd (Main.main (H := Samples.latin1) Samples.answering Samples.dotenv_file
              [Py.lit "--destination"; Py.lit "Kyoto"] Samples.keyed_world)) = [c]
    /\ Sys.call_model c = Py.lit "gemini-pro".
Proof.
  destruct (cli_model_precedence (H := Samples.latin1) Samples.answering
              Samples.dotenv_file
              [Py.lit "--destination"; Py.lit "Kyoto"] Samples.kyoto
              Samples.keyed_world (Py.lit "secret"))
    as (c & Hcalls & _ & Henv & _).
  - vm_compute. reflexivity.
  - vm_compute. reflexivity.
  - exists c. split; [exact Hcalls|].
    apply (Henv 103%N (Py.lit "emini-pro")).
    + reflexivity.
    + vm_compute. reflexivity.
    + vm_compute. discriminate.
Defined.

Lemma cli_process_environment_wins_witness :
  fst (Main.main (H := Samples.latin1) Samples.answering Samples.dotenv_file
         [Py.lit "--destination"; Py.lit "Kyoto"] Samples.blank_key_world)
  = Py.Ok 2%Z
  /\ exists c,
       Sys.api_calls
         (snd (Main.main (H := Samples.latin1) Samples.answering Samples.dotenv_file
                 [Py.lit "--destination"; Py.lit "Kyoto"] Samples.empty_world)) = [c]
       /\ Sys.call_key c = Some (Py.lit "from-file").
Proof.
  split.
  - destruct (cli_process_environment_wins (H := Samples.latin1) Samples.answering
                Samples.dotenv_file
                [Py.lit "--destination"; Py.lit "Kyoto"] Samples.kyoto
                Samples.blank_key_world) as [Hblank _].
    + vm_compute. reflexivity.
    + apply (Hblank (Py.lit "  ")); vm_compute; reflexivity.
  - destruct (cli_process_environment_wins (H := Samples.latin1) Samples.answering
                Samples.dotenv_file
                [Py.lit "--destination"; Py.lit "Kyoto"] Samples.kyoto
                Samples.empty_world) as [_ Hfile].
    + vm_compute. reflexivity.
    + apply (Hfile (Py.lit "from-file")); vm_compute; reflexivity.
Defined.

Lemma cli_at_most_one_request_witness :
  (fst (Main.main (H := Samples.latin1) Samples.answering ∅ []
          Samples.keyed_world) = Py.Raise (Py.SystemExit 2)
   /\ Sys.api_calls
        (snd (Main.main (H := Samples.latin1) Samples.answering ∅ []
                Samples.keyed_world)) = [])
  /\ (fst (Main.main (H := Samples.latin1) Samples.answering ∅
             [Py.lit "--destination"; Py.lit "Kyoto"; Py.lit "--help"]
             Samples.keyed_world) = Py.Raise (Py.SystemExit 0)
      /\ Sys.api_calls
           (snd (Main.main (H := Samples.latin1) Samples.answering ∅
                   [Py.lit "--destination"; Py.lit "Kyoto"; Py.lit "--help"]
                   Samples.keyed_world)) = []).
Proof.
  split.
  - destruct (cli_at_most_one_request (H := Samples.latin1) Samples.answering ∅ []
                Samples.keyed_world) as (_ & Husage & _).
    destruct (Husage Sys.RequiredMissing) as (Hexit & Hcalls & _).
    + vm_compute. reflexivity.
    + split; [exact Hexit|exact Hcalls].
  - destruct (cli_at_most_one_request (H := Samples.latin1) Samples.answering ∅
                [Py.lit "--destination"; Py.lit "Kyoto"; Py.lit "--help"]
                Samples.keyed_world) as (_ & _ & Hhelp).
    destruct Hhelp as (Hexit & Hcalls & _).
    + vm_compute. reflexivity.
    + split; [exact Hexit|exact Hcalls].
Defined.

Lemma post_with_untyped_destination_crashes_witness :
  Server.do_POST (H := Samples.latin1) Samples.answering (Py.lit "/srv")
    (Samples.post {[ Py.lit "destination" := Py.JInt 5 ]}) Samples.keyed_world
  = (Py.Raise Py.AttributeError, Samples.keyed_world).
Proof.
  apply (post_with_untyped_destination_crashes (H := Samples.latin1)
           Samples.answering (Py.lit "/srv")
           (Samples.post {[ Py.lit "destination" := Py.JInt 5 ]}) 64%Z
           (Py.JObj {[ Py.lit "destination" := Py.JInt 5 ]})).
  - reflexivity.
  - vm_compute. reflexivity.
  - reflexivity.
  - right. exists {[ Py.lit "destination" := Py.JInt 5 ]}, (Py.JInt 5).
    repeat split; try (vm_compute; reflexivity). intros s. discriminate.
Defined.

Lemma post_without_key_is_500_witness :
  exists w',
    Server.do_POST (H := Samples.latin1) Samples.answering (Py.lit "/srv")
      (Samples.post Samples.kyoto_object) Samples.empty_world = (Py.Ok tt, w')
    /\ Sys.api_calls w' = [].
Proof.
  destruct (post_without_key_is_500 (H := Samples.latin1) Samples.answering
              (Py.lit "/srv") (Samples.post Samples.kyoto_object) 64%Z
              Samples.kyoto_object Samples.empty_world
              75%N (Py.lit "yoto") None (Py.lit "INR") (Py.lit "gemini-1.5-flash"))
    as (w' & Hpost & _ & Hcalls & _);
    try (vm_compute; reflexivity).
  exists w'. split; [exact Hpost|exact Hcalls].
Defined.

Lemma post_generator_failure_is_500_witness :
  exists w',
    Server.do_POST (H := Samples.latin1) Samples.failing (Py.lit "/srv")
      (Samples.post Samples.kyoto_object) Samples.keyed_world = (Py.Ok tt, w')
    /\ Sys.files w' = ∅.
Proof.
  destruct (post_generator_failure_is_500 (H := Samples.latin1) Samples.failing
              (Py.lit "/srv") (Samples.post Samples.kyoto_object) 64%Z
              Samples.kyoto_object Samples.keyed_world
              75%N (Py.lit "yoto") None (Py.lit "INR") (Py.lit "gemini-1.5-flash")
              115%N (Py.lit "ecret") (Py.lit "quota exceeded"))
    as (w' & Hpost & _ & _ & Hfiles);
    try (vm_compute; reflexivity).
  exists w'. split; [exact Hpost|exact Hfiles].
Defined.

Lemma post_success_is_200_witness :
  exists w',
    Server.do_POST (H := Samples.latin1) Samples.answering (Py.lit "/srv")
      (Samples.post Samples.kyoto_object) Samples.keyed_world = (Py.Ok tt, w')
    /\ Sys.files w' !! Py.lit "/srv/reports/Kyoto.md" =
         Some (Sys.File (Py.lit "# Guide")).
Proof.
  destruct (post_success_is_200 (H := Samples.latin1) Samples.answering
              (Py.lit "/srv") (Samples.post Samples.kyoto_object) 64%Z
              Samples.kyoto_object Samples.keyed_world
              75%N (Py.lit "yoto") None (Py.lit "INR") (Py.lit "gemini-1.5-flash")
              115%N (Py.lit "ecret") (Some (Py.lit "# Guide")))
    as (w' & Hpost & _ & Hfile & _);
    try (vm_compute; reflexivity).
  - intros x. vm_compute. discriminate.
  - vm_compute. discriminate.
  - exists w'. split; [exact Hpost|exact Hfile].
Defined.

Lemma post_invalid_json_is_400_witness :
  fst (Server.do_POST (H := Samples.latin1) Samples.answering (Py.lit "/srv")
         {| Server.path := Py.lit "/api/generate";
            Server.content_length := Some (Py.lit "3");
            Server.sent_body := Server.Undecodable (Py.lit "Expecting value") |}
         Samples.keyed_world) = Py.Ok tt.
Proof.
  rewrite (post_invalid_json_is_400 (H := Samples.latin1) Samples.answering
             (Py.lit "/srv")
             {| Server.path := Py.lit "/api/generate";
                Server.content_length := Some (Py.lit "3");
                Server.sent_body := Server.Undecodable (Py.lit "Expecting value") |}
             3%Z (Py.lit "Expecting value") Samples.keyed_world).
  - reflexivity.
  - reflexivity.
  - vm_compute. reflexivity.
  - discriminate.
  - reflexivity.
Defined.

Lemma post_without_length_is_400_witness :
  fst (Server.do_POST (H := Samples.latin1) Samples.answering (Py.lit "/srv")
         {| Server.path := Py.lit "/api/generate";
            Server.content_length := None;
            Server.sent_body := Server.Decoded (Py.JObj Samples.kyoto_object) |}
         Samples.keyed_world) = Py.Ok tt.
Proof.
  rewrite (post_without_length_is_400 (H := Samples.latin1) Samples.answering
             (Py.lit "/srv")
             {| Server.path := Py.lit "/api/generate";
                Server.content_length := None;
                Server.sent_body := Server.Decoded (Py.JObj Samples.kyoto_object) |}
             Samples.keyed_world).
  - reflexivity.
  - reflexivity.
  - left. reflexivity.
Defined.

Lemma handler_days_at_least_one_witness :
  Server.coerce_days (H := Samples.latin1) {[ Py.lit "days" := Py.JInt (-5) ]}
  = Z.max 1 (-5).
Proof.
  destruct (handler_days_at_least_one (H := Samples.latin1)
              {[ Py.lit "days" := Py.JInt (-5) ]}) as [_ Hmax].
  apply Hmax.
  - vm_compute. reflexivity.
  - discriminate.
Defined.

Lemma handler_fields_are_trimmed_witness :
  Py.strip (Py.lit "usd") = Py.lit "usd".
Proof.
  destruct (handler_fields_are_trimmed
              {[ Py.lit "currency" := Py.JStr (Py.lit " usd ") ]})
    as (_ & _ & Hcurrency & _).
  apply Hcurrency. vm_compute. reflexivity.
Defined.

Lemma blank_key_is_a_key_for_the_handler_only_witness :
  fst (Main.main (H := Samples.latin1) Samples.answering ∅
         [Py.lit "--destination"; Py.lit "Kyoto"] Samples.blank_key_world)
  = Py.Ok 2%Z
  /\ exists c,
       Sys.api_calls
         (snd (Server.do_POST (H := Samples.latin1) Samples.answering (Py.lit "/srv")
                 (Samples.post Samples.kyoto_object) Samples.blank_key_world)) = [c]
       /\ Sys.call_key c = Some (Py.lit "  ").
Proof.
  destruct (blank_key_is_a_key_for_the_handler_only (H := Samples.latin1)
              Samples.answering ∅ (Py.lit "/srv") 32%N (Py.lit " "))
    as [Hcli Hhandler].
  - vm_compute. reflexivity.
  - split.
    + apply (Hcli [Py.lit "--destination"; Py.lit "Kyoto"] Samples.kyoto
               Samples.blank_key_world); vm_compute; reflexivity.
    + apply (Hhandler (Samples.post Samples.kyoto_object) 64%Z
               Samples.kyoto_object Samples.blank_key_world
               75%N (Py.lit "yoto") None (Py.lit "INR")
               (Py.lit "gemini-1.5-flash")); vm_compute; reflexivity.
Defined.

(** ** Destinations that are false, destinations that collide *)

Section MoreEdges.
Import Py Sys.
Context `{Unicode}.
Variable remote : list api_call -> api_call -> api_outcome.
Variable PROJECT_DIR : pystr.

(** X19.  A [destination] that is false without being a string (zero,
    [false], [null], an empty list or object) is answered like a missing
    one: 400, no request, no file. *)
Theorem post_with_false_destination_is_400 :
  forall (req : Server.request) (n : Z) (d : gmap pystr json) (v : json)
         (w : world),
    Server.path req = lit "/api/generate" ->
    int_of_str (default (lit "0") (Server.content_length req)) = Some n ->
    Server.loads (Server.read_body n req) = inr (JObj d) ->
    d !! lit "destination" = Some v ->
    truthy v = false ->
    Server.do_POST remote PROJECT_DIR req w =
      (Ok tt,
       add_sent {| status := 400;
                   payload := [(lit "ok", JBool false);
                               (lit "error", JStr (lit "'destination' is required"))] |} w).
Proof.
  intros req n d v w Hpath Hn Hdata Hv Hfalse.
  rewrite (do_POST_decoded remote PROJECT_DIR req n (JObj d) w Hpath Hn Hdata).
  apply generate_without_destination.
  unfold Server.destination_of, dict_get, py_or. rewrite Hv. simpl.
  rewrite Hfalse. reflexivity.
Qed.

Lemma report_path_inj (dir a b : pystr) :
  path_join dir (a ++ lit ".md") = path_join dir (b ++ lit ".md") -> a = b.
Proof.
  unfold path_join. intros Heq.
  apply app_inv_head in Heq. apply app_inv_head in Heq.
  apply app_inv_tail in Heq. exact Heq.
Qed.

(** What a successful save leaves behind. *)
Lemma save_output_markdown_files (d t p : pystr) (w w1 : world) :
  Main.save_output_markdown d t w = (Ok p, w1) ->
  p = path_join (lit "reports") (Main.sanitize_filename d ++ lit ".md")
  /\ files w1 = <[p := File t]> (<[lit "reports" := Dir]> (files w)).
Proof.
  unfold Main.save_output_markdown. intros Hsave.
  destruct (persist_inv _ _ _ _ _ _ Hsave) as (Hp & Hfiles & _).
  split; [exact Hp|]. rewrite Hp. exact Hfiles.
Qed.

(** X20.  Two destinations share one report exactly when their sanitized
    names are equal: then the later save replaces the earlier text;
    otherwise the later save goes to another path and leaves the earlier
    report as it was. *)
Theorem reports_collide_on_equal_names :
  forall (d1 d2 t1 t2 p1 : pystr) (w w1 : world),
    Main.save_output_markdown d1 t1 w = (Ok p1, w1) ->
    (Main.sanitize_filename d1 = Main.sanitize_filename d2 ->
     exists w2,
       Main.save_output_markdown d2 t2 w1 = (Ok p1, w2)
       /\ files w2 !! p1 = Some (File t2))
    /\ (Main.sanitize_filename d1 <> Main.sanitize_filename d2 ->
        forall p2 w2,
          Main.save_output_markdown d2 t2 w1 = (Ok p2, w2) ->
          p2 <> p1 /\ files w2 !! p1 = Some (File t1)).
Proof.
  intros d1 d2 t1 t2 p1 w w1 Hfirst.
  destruct (save_output_markdown_files d1 t1 p1 w w1 Hfirst) as [Hp1 Hfiles1].
  split.
  - intros Hsame. unfold Main.save_output_markdown in *. rewrite <- Hsame.
    destruct (persist_twice _ _ t1 t2 p1 w w1 Hfirst) as [_ (w2 & Hsecond & Hfile & _)].
    exists w2. split; assumption.
  - intros Hdiff p2 w2 Hsecond.
    destruct (save_output_markdown_files d2 t2 p2 w1 w2 Hsecond) as [Hp2 Hfiles2].
    assert (p2 <> p1) as Hne.
    { rewrite Hp1, Hp2. intros Heq. apply Hdiff. symmetry.
      apply (report_path_inj _ _ _ Heq). }
    split; [exact Hne|].
    rewrite Hfiles2, lookup_insert_ne by exact Hne.
    rewrite lookup_insert_ne
      by (rewrite Hp1; intros Heq; symmetry in Heq;
          apply path_join_ne_dir in Heq; exact Heq).
    rewrite Hfiles1. apply lookup_insert_eq.
Qed.

End MoreEdges.

Lemma post_with_false_destination_is_400_witness :
  fst (Server.do_POST (H := Samples.latin1) Samples.answering (Py.lit "/srv")
         (Samples.post {[ Py.lit "destination" := Py.JInt 0 ]}) Samples.keyed_world)
  = Py.Ok tt.
Proof.
  rewrite (post_with_false_destination_is_400 (H := Samples.latin1)
             Samples.answering (Py.lit "/srv")
             (Samples.post {[ Py.lit "destination" := Py.JInt 0 ]}) 64%Z
             {[ Py.lit "destination" := Py.JInt 0 ]} (Py.JInt 0)
             Samples.keyed_world); reflexivity.
Defined.

Lemma reports_collide_on_equal_names_witness :
  exists w2,
    Main.save_output_markdown (H := Samples.latin1) (Py.lit "Kyoto!") (Py.lit "second")
      (snd (Main.save_output_markdown (H := Samples.latin1) (Py.lit "Kyoto")
              (Py.lit "first") Samples.empty_world))
    = (Py.Ok (Py.lit "reports/Kyoto.md"), w2)
    /\ Sys.files w2 !! Py.lit "reports/Kyoto.md" = Some (Sys.File (Py.lit "second")).
Proof.
  destruct (reports_collide_on_equal_names (H := Samples.latin1)
              (Py.lit "Kyoto") (Py.lit "Kyoto!") (Py.lit "first") (Py.lit "second")
              (Py.lit "reports/Kyoto.md") Samples.empty_world
              (snd (Main.save_output_markdown (H := Samples.latin1) (Py.lit "Kyoto")
                      (Py.lit "first") Samples.empty_world)))
    as [Hsame _].
  - vm_compute. reflexivity.
  - apply Hsame. vm_compute. reflexivity.
Defined.
